(** * ByteMLPerf llm_perf: batch preparation and the packet life cycle

    A shallow embedding of
    - [byte_infer_perf/llm_perf/core/engine.py] ([PacketStatus],
      [CoreEngine.Packet] and its operations), and
    - [byte_infer_perf/llm_perf/backends/NPU/npu_engine.py]
      ([NpuEngine.Packet.prepare_inputs], [NpuEngine.broadcast_inputs]),
    followed by the properties of the padding policy, of the error
    behaviour and of the packet operations. *)

From stdpp Require Import gmap strings list fin_maps.
From Stdlib Require Import ZArith Lia.

Local Open Scope Z_scope.

(** ** Python values and exceptions *)

(** The Python objects that flow through the two files: keyword
    arguments, configuration dictionaries, token rows, the dictionary
    returned to the executor and the argument tuples of
    [broadcast_inputs]. *)
#[warnings="-register-all"]
Inductive pyobj : Type :=
| PyNone
| PyBool (b : bool)
| PyInt (z : Z)
| PyStr (s : string)
| PyList (l : list pyobj)
| PyTuple (l : list pyobj)
| PyDict (d : gmap string pyobj).

(** The exceptions the modelled statements can raise: Python's built-in
    ones ([KeyErrorInt] is a [KeyError] whose key is an integer), and the
    [TransportError] of a messenger whose link is down. *)
Inductive exn : Type :=
| KeyError (key : string)
| KeyErrorInt (key : Z)
| UnboundLocalError (var : string)
| IndexError
| TypeError
| AttributeError (attr : string)
| TransportError.

(** Name of the class of an exception object. *)
Definition exn_class (e : exn) : string :=
  match e with
  | KeyError _ => "KeyError"
  | KeyErrorInt _ => "KeyError"
  | UnboundLocalError _ => "UnboundLocalError"
  | IndexError => "IndexError"
  | TypeError => "TypeError"
  | AttributeError _ => "AttributeError"
  | TransportError => "TransportError"
  end.

(** A call either returns a value or raises. *)
Inductive result (A : Type) : Type :=
| Ok (a : A)
| Raise (e : exn).
Arguments Ok {A} a.
Arguments Raise {A} e.

#[global] Instance result_ret : MRet result := λ A a, Ok a.

#[global] Instance result_bind : MBind result := λ A B k c,
  match c with
  | Ok a => k a
  | Raise e => Raise e
  end.

(** [len(l)] *)
Definition len {A : Type} (l : list A) : Z := Z.of_nat (length l).

(** [[x] * n]: the empty list when [n] is not positive. *)
Definition py_repeat {A : Type} (x : A) (n : Z) : list A :=
  replicate (Z.to_nat n) x.

(** [[i for i in range(n)]] *)
Definition py_range (n : Z) : list Z :=
  Z.of_nat <$> seq 0 (Z.to_nat n).

(** [l[i]] on a list; negative indices count from the end. *)
Definition py_getitem {A : Type} (l : list A) (i : Z) : result A :=
  let j := if i <? 0 then len l + i else i in
  if j <? 0 then Raise IndexError
  else match l !! Z.to_nat j with
       | Some x => Ok x
       | None => Raise IndexError
       end.

(** [d[k]] on a dictionary. *)
Definition dict_getitem (d : gmap string pyobj) (k : string) : result pyobj :=
  match d !! k with
  | Some v => Ok v
  | None => Raise (KeyError k)
  end.

(** [o[k]] with a string key on an arbitrary object: only dictionaries
    accept it. *)
Definition py_subscript (o : pyobj) (k : string) : result pyobj :=
  match o with
  | PyDict d => dict_getitem d k
  | _ => Raise TypeError
  end.

(** [o[i]] with an integer index on an arbitrary object. Lists and
    tuples give the item, a string gives the one-character string at
    that place, a dictionary (whose keys are strings here) has no
    integer key and raises [KeyError]; [None], booleans and integers are
    not subscriptable. *)
Definition py_index (o : pyobj) (i : Z) : result pyobj :=
  match o with
  | PyList l | PyTuple l => py_getitem l i
  | PyStr s =>
      c ← py_getitem (String.list_ascii_of_string s) i;
      Ok (PyStr (String c EmptyString))
  | PyDict _ => Raise (KeyErrorInt i)
  | PyNone | PyBool _ | PyInt _ => Raise TypeError
  end.

(** [o == s] for a string literal [s]. *)
Definition py_eq_str (o : pyobj) (s : string) : bool :=
  match o with
  | PyStr t => bool_decide (t = s)
  | _ => false
  end.

(** The call raises an exception of class [cls]. *)
Definition raises_class {A : Type} (r : result A) (cls : string) : Prop :=
  ∃ e, r = Raise e ∧ exn_class e = cls.

(** A [for] loop whose body may raise: the locals [s] are threaded
    through the iterations, and the first exception ends the loop. *)
Fixpoint for_each {S A : Type} (body : S → A → result S) (l : list A) (s : S)
  : result S :=
  match l with
  | [] => Ok s
  | x :: rest => s' ← body s x; for_each body rest s'
  end.

Section Engine.

(** [llm_perf/core/generation.py] is imported by both files and is not
    part of the sources at hand. What the sampler keeps in a request's
    configuration and what it attaches to a result is left abstract. *)
Context {GenerateConfig ResultMeta : Type}.

(** ** llm_perf.core.generation *)

(** Modelled from the spec: [GenerateRequest], defined in
    [llm_perf/core/generation.py]: a sequence of input token ids and a
    generation configuration. *)
Record GenerateRequest : Type := {
  input_ids : list Z;
  generate_config : GenerateConfig;
}.

(** Modelled from the spec: [GenerateResult], defined in
    [llm_perf/core/generation.py]: a single produced token id plus the
    per-step metadata of the sampler. *)
Record GenerateResult : Type := {
  token_id : Z;
  result_meta : ResultMeta;
}.

(** Modelled from the spec: [ResultQueue], defined in
    [llm_perf/core/generation.py]: a first-in first-out channel of
    [GenerateResult | terminal-marker] with a non-blocking [put], a [get]
    that suspends the caller until an item is available, and a
    non-blocking [empty]. The terminal marker is Python's [None]. Reading
    after termination does not block: once a terminal marker has been
    taken the channel is [closed], and a [get] that finds nothing
    waiting returns the terminal marker again. *)
Record ResultQueue : Type := {
  items : list (option GenerateResult);
  closed : bool;
}.

Definition terminal_marker : option GenerateResult := None.

Definition ResultQueue_new : ResultQueue :=
  {| items := []; closed := false |}.

(** The item is the terminal marker. *)
Definition is_terminal_marker (item : option GenerateResult) : bool :=
  match item with
  | None => true
  | Some _ => false
  end.

Definition ResultQueue_put (q : ResultQueue) (item : option GenerateResult)
  : ResultQueue :=
  {| items := items q ++ [item]; closed := closed q |}.

(** [None]: the caller stays suspended, nothing is available and no
    terminal marker has been taken yet. *)
Definition ResultQueue_get (q : ResultQueue)
  : option (option GenerateResult * ResultQueue) :=
  match items q with
  | [] => if closed q then Some (terminal_marker, q) else None
  | item :: rest =>
      Some (item,
            {| items := rest; closed := closed q || is_terminal_marker item |})
  end.

Definition ResultQueue_empty (q : ResultQueue) : bool :=
  match items q with
  | [] => true
  | _ :: _ => false
  end.

(** ** llm_perf.core.engine *)

Inductive PacketStatus : Type :=
| ERROR
| PENDING
| RUNNING
| FINISH.

Definition PacketStatus_value (s : PacketStatus) : Z :=
  match s with
  | ERROR => -1
  | PENDING => 0
  | RUNNING => 1
  | FINISH => 2
  end.

(** [a == b] on members of the enumeration. *)
Definition PacketStatus_eqb (a b : PacketStatus) : bool :=
  PacketStatus_value a =? PacketStatus_value b.

(** [CoreEngine.Packet]: the attributes set by [__init__]. *)
Record Packet : Type := {
  request : GenerateRequest;
  result_queue : ResultQueue;
  state : PacketStatus;
  generate_ids : list Z;
  exception : option exn;
}.

(** [Packet.__init__] *)
Definition Packet_init (request : GenerateRequest) : Packet :=
  {| request := request;
     result_queue := ResultQueue_new;
     state := PENDING;
     generate_ids := [];
     exception := None |}.

Definition add_result (self : Packet) (res : GenerateResult) : Packet :=
  let self :=
    {| request := request self;
       result_queue := result_queue self;
       state := state self;
       generate_ids := generate_ids self ++ [token_id res];
       exception := exception self |} in
  {| request := request self;
     result_queue := ResultQueue_put (result_queue self) (Some res);
     state := state self;
     generate_ids := generate_ids self;
     exception := exception self |}.

(** [await self.result_queue.get()]: [None] when the caller stays
    suspended, otherwise the item taken and the packet afterwards. *)
Definition get_result (self : Packet)
  : option (option GenerateResult * Packet) :=
  match ResultQueue_get (result_queue self) with
  | None => None
  | Some (item, q) =>
      Some (item,
            {| request := request self;
               result_queue := q;
               state := state self;
               generate_ids := generate_ids self;
               exception := exception self |})
  end.

Definition finish (self : Packet) : Packet :=
  let self :=
    {| request := request self;
       result_queue := result_queue self;
       state := FINISH;
       generate_ids := generate_ids self;
       exception := exception self |} in
  {| request := request self;
     result_queue := ResultQueue_put (result_queue self) terminal_marker;
     state := state self;
     generate_ids := generate_ids self;
     exception := exception self |}.

(** The body of [error] is the expression statement
    [self.state == PacketStatus.ERROR]: the comparison is evaluated and
    its value dropped. *)
Definition error (self : Packet) : Packet :=
  let _ := PacketStatus_eqb (state self) ERROR in
  self.

Definition is_finished (self : Packet) : bool :=
  PacketStatus_eqb (state self) FINISH.

Definition return_q_empty (self : Packet) : bool :=
  ResultQueue_empty (result_queue self).

(** ** llm_perf.backends.NPU.npu_engine *)

(** [NpuEngine.Packet] extends [CoreEngine.Packet] with a
    [generation_start_time] attribute that no function below reads;
    [prepare_inputs] is declared on [List[CoreEngine.Packet]]. *)
Definition _is_finished (self : Packet) : bool := is_finished self.

(** [len(packet.request.input_ids) + len(packet.generate_ids)] *)
Definition cur_id_len (packet : Packet) : Z :=
  len (input_ids (request packet)) + len (generate_ids packet).

(** The first loop of [prepare_inputs]. *)
Definition max_seq_len (batch : list Packet) : Z :=
  fold_left
    (λ max_seq_len packet,
       let cur_id_len := cur_id_len packet in
       if cur_id_len >? max_seq_len then cur_id_len else max_seq_len)
    batch (-1).

(** The locals of [prepare_inputs] that outlive an iteration of its
    second loop; [generate_type] is unbound until the loop has run once. *)
Record locals : Type := {
  all_input_ids : list (list pyobj);
  all_position_ids : list (list pyobj);
  generate_type : option pyobj;
}.

(** One iteration of the second loop. The assignment
    [generate_type = ""] that opens the body is overwritten in both
    branches before the iteration ends. *)
Definition prepare_row (pad_token_id : pyobj) (max_seq_len : Z)
    (l : locals) (packet : Packet) : result locals :=
  let cur_id_len := cur_id_len packet in
  let pad_len := max_seq_len - cur_id_len in
  if len (generate_ids packet) =? 0 then
    let input_ids :=
      (PyInt <$> input_ids (request packet))
      ++ (PyInt <$> generate_ids packet)
      ++ py_repeat pad_token_id pad_len in
    let all_position_ids :=
      all_position_ids l ++ [PyInt <$> py_range max_seq_len] in
    Ok {| all_input_ids := all_input_ids l ++ [input_ids];
          all_position_ids := all_position_ids;
          generate_type := Some (PyStr "prefill") |}
  else
    last ← py_getitem (generate_ids packet) (len (generate_ids packet) - 1);
    let input_ids := [PyInt last] ++ py_repeat pad_token_id (max_seq_len - 1) in
    let all_position_ids :=
      all_position_ids l
      ++ [[PyInt (max_seq_len - 1)] ++ py_repeat (PyInt 0) (max_seq_len - 1)] in
    Ok {| all_input_ids := all_input_ids l ++ [input_ids];
          all_position_ids := all_position_ids;
          generate_type := Some (PyStr "decode") |}.

(** Reading a local variable. *)
Definition read_local (name : string) (v : option pyobj) : result pyobj :=
  match v with
  | Some o => Ok o
  | None => Raise (UnboundLocalError name)
  end.

(** [NpuEngine.Packet.prepare_inputs(batch, **kwargs)] *)
Definition prepare_inputs (batch : list Packet) (kwargs : gmap string pyobj)
  : result (gmap string pyobj) :=
  model_config ← dict_getitem kwargs "model_config";
  pad_token_id ← dict_getitem kwargs "pad_token_id";
  let max_seq_len := max_seq_len batch in
  l ← for_each (prepare_row pad_token_id max_seq_len) batch
        {| all_input_ids := []; all_position_ids := [];
           generate_type := None |};
  let model_inputs : gmap string pyobj :=
    <["use_cache" := PyNone]>
      (<["attention_mask" := PyNone]>
         (<["past_key_values" := PyNone]> ∅)) in
  let model_inputs :=
    <["input_ids" := PyList (PyList <$> all_input_ids l)]> model_inputs in
  let model_inputs :=
    <["position_ids" := PyList (PyList <$> all_position_ids l)]> model_inputs in
  generate_type ← read_local "generate_type" (generate_type l);
  let model_inputs := <["generate_type" := generate_type]> model_inputs in
  model_name ← py_subscript model_config "model_name";
  if py_eq_str model_name "chatglm2" then
    Ok (<["return_last_logit" := PyBool false]> model_inputs)
  else
    Ok model_inputs.

(** Modelled from the spec: [NPUMultiProcessMsgr], defined in
    [llm_perf/backends/NPU/npu_process_messager.py]: [broadcast] on the
    leader sends the payload to every follower, [receive] on a follower
    suspends until the leader's payload has arrived and returns it,
    payloads arrive in the order they were sent; when the leader has
    crashed or a follower has disconnected the call fails with
    [TransportError]. [sent] is what this process has broadcast so far,
    [inbox] what has arrived and has not been received yet, [connected]
    whether the link to the other ranks is up. *)
Record NPUMultiProcessMsgr : Type := {
  sent : list pyobj;
  inbox : list pyobj;
  connected : bool;
}.

Definition broadcast (m : NPUMultiProcessMsgr) (obj : pyobj)
  : result NPUMultiProcessMsgr :=
  if connected m then
    Ok {| sent := sent m ++ [obj]; inbox := inbox m; connected := true |}
  else Raise TransportError.

(** A payload that has arrived is handed over. With nothing arrived the
    caller stays suspended ([Ok None]) while the link is up, and the call
    fails once it is down. *)
Definition receive (m : NPUMultiProcessMsgr)
  : result (option (pyobj * NPUMultiProcessMsgr)) :=
  match inbox m with
  | obj :: rest =>
      Ok (Some (obj, {| sent := sent m; inbox := rest;
                        connected := connected m |}))
  | [] => if connected m then Ok None else Raise TransportError
  end.

(** The attributes of an [NpuEngine] read below; [mlp_manager] exists
    only when [__init__] found [world_size > 1]. *)
Record NpuEngine : Type := {
  model_config : pyobj;
  pad_token_id : pyobj;
  world_size : Z;
  local_rank : Z;
  mlp_manager : option NPUMultiProcessMsgr;
}.

Definition set_mlp_manager (self : NpuEngine) (m : NPUMultiProcessMsgr)
  : NpuEngine :=
  {| model_config := model_config self;
     pad_token_id := pad_token_id self;
     world_size := world_size self;
     local_rank := local_rank self;
     mlp_manager := Some m |}.

(** [self.mlp_manager] *)
Definition get_mlp_manager (self : NpuEngine) : result NPUMultiProcessMsgr :=
  match mlp_manager self with
  | Some m => Ok m
  | None => Raise (AttributeError "mlp_manager")
  end.

(** [NpuEngine.broadcast_inputs(self, *args)]: [args] are the positional
    arguments of the call, bound to the tuple [PyTuple args]. The result
    is [None] when the call stays suspended in [receive], otherwise the
    value returned and the engine afterwards. *)
Definition broadcast_inputs (self : NpuEngine) (args : list pyobj)
  : result (option (pyobj * NpuEngine)) :=
  let args := PyTuple args in
  if world_size self <=? 1 then Ok (Some (args, self))
  else if local_rank self =? 0 then
    m ← get_mlp_manager self;
    m ← broadcast m args;
    Ok (Some (args, set_mlp_manager self m))
  else
    m ← get_mlp_manager self;
    r ← receive m;
    match r with
    | None => Ok None
    | Some (inputs, m) => Ok (Some (inputs, set_mlp_manager self m))
    end.

(** [NpuEngine.prepare_inputs(self, batch)] *)
Definition NpuEngine_prepare_inputs (self : NpuEngine) (batch : list Packet)
  : result (gmap string pyobj) :=
  prepare_inputs batch
    (<["pad_token_id" := pad_token_id self]>
       (<["model_config" := model_config self]> ∅)).

End Engine.

(** ** Vocabulary of the statements *)

Section Vocabulary.

Context {GenerateConfig ResultMeta : Type}.
Implicit Types (packet : @Packet GenerateConfig ResultMeta)
               (batch : list (@Packet GenerateConfig ResultMeta)).

(** [m] is the maximum over the packets of the batch of
    [len(request.input_ids) + len(generate_ids)]. *)
Definition is_max_length batch (m : Z) : Prop :=
  Exists (λ packet, cur_id_len packet = m) batch
  ∧ Forall (λ packet, cur_id_len packet ≤ m) batch.

#[global] Instance is_max_length_dec batch m : Decision (is_max_length batch m).
Proof. unfold is_max_length. apply _. Defined.

(** The row of token ids the second loop appends for one packet. *)
Definition input_row (pad_token_id : pyobj) (m : Z) packet : list pyobj :=
  if len (generate_ids packet) =? 0 then
    (PyInt <$> input_ids (request packet))
    ++ (PyInt <$> generate_ids packet)
    ++ py_repeat pad_token_id (m - cur_id_len packet)
  else
    match last (generate_ids packet) with
    | Some t => PyInt t :: py_repeat pad_token_id (m - 1)
    | None => []
    end.

(** The row of positions the second loop appends for one packet. *)
Definition position_row (m : Z) packet : list pyobj :=
  if len (generate_ids packet) =? 0 then PyInt <$> py_range m
  else PyInt (m - 1) :: py_repeat (PyInt 0) (m - 1).

(** The tag the second loop assigns while it handles one packet. *)
Definition row_type packet : pyobj :=
  if len (generate_ids packet) =? 0 then PyStr "prefill" else PyStr "decode".

End Vocabulary.

(** ** Sample data *)

Definition sample_request (ids : list Z) : @GenerateRequest unit :=
  {| input_ids := ids; generate_config := tt |}.

Definition sample_packet (st : PacketStatus) (ids gen : list Z)
  : @Packet unit unit :=
  {| request := sample_request ids;
     result_queue := ResultQueue_new;
     state := st;
     generate_ids := gen;
     exception := None |}.

(** A packet as [__init__] leaves it. *)
Definition sample_new_packet (ids : list Z) : @Packet unit unit :=
  Packet_init (sample_request ids).

Definition sample_result (t : Z) : @GenerateResult unit :=
  {| token_id := t; result_meta := tt |}.

Definition sample_kwargs (pad : Z) (name : string) : gmap string pyobj :=
  <["pad_token_id" := PyInt pad]>
    (<["model_config" := PyDict (<["model_name" := PyStr name]> ∅)]> ∅).

(** Keyword arguments without [pad_token_id]. *)
Definition sample_kwargs_no_pad : gmap string pyobj :=
  <["model_config" := PyDict (<["model_name" := PyStr "llama2"]> ∅)]> ∅.

(** Keyword arguments whose configuration has no [model_name]. *)
Definition sample_kwargs_no_name : gmap string pyobj :=
  <["pad_token_id" := PyInt 0]>
    (<["model_config" := PyDict (<["model_path" := PyStr "/models"]> ∅)]> ∅).

(** A prepared batch, as [do_inference] hands it to [broadcast_inputs]. *)
Definition sample_model_inputs : pyobj :=
  PyDict (<["generate_type" := PyStr "prefill"]>
            (<["input_ids" := PyList [PyList [PyInt 5; PyInt 7; PyInt 9]]]> ∅)).

Definition sample_engine (ws rank : Z) : NpuEngine :=
  {| model_config := PyDict (<["model_name" := PyStr "llama2"]> ∅);
     pad_token_id := PyInt 0;
     world_size := ws;
     local_rank := rank;
     mlp_manager := None |}.

(** ** Callers and sequences of calls *)

Section Callers.

Context {GenerateConfig ResultMeta : Type}.
Implicit Types (self : @Packet GenerateConfig ResultMeta)
               (res : @GenerateResult ResultMeta).

(** The first two statements of [NpuEngine.do_inference] after the
    device selection: the leader prepares the inputs, every rank passes
    its value through [broadcast_inputs] and keeps item 0 of what comes
    back. The conversion to tensors and the forward pass that follow are
    outside the embedding. *)
Definition do_inference_inputs (self : NpuEngine)
    (packets : list (@Packet GenerateConfig ResultMeta))
  : result (option (pyobj * NpuEngine)) :=
  model_inputs ←
    (if local_rank self =? 0 then
       model_inputs ← NpuEngine_prepare_inputs self packets;
       Ok (PyDict model_inputs)
     else Ok PyNone);
  r ← broadcast_inputs self [model_inputs];
  match r with
  | None => Ok None
  | Some (inputs, self) =>
      model_inputs ← py_index inputs 0; Ok (Some (model_inputs, self))
  end.

(** [add_result] called once per result, in order. *)
Definition add_results self (rs : list (@GenerateResult ResultMeta))
  : @Packet GenerateConfig ResultMeta :=
  fold_left add_result rs self.

(** One call of a method of [CoreEngine.Packet] that returns: the packet
    before and after it. A [get_result] that stays suspended is no step. *)
Inductive packet_step
  : @Packet GenerateConfig ResultMeta → @Packet GenerateConfig ResultMeta → Prop :=
| step_add_result self res : packet_step self (add_result self res)
| step_finish self : packet_step self (finish self)
| step_error self : packet_step self (error self)
| step_get_result self item self' :
    get_result self = Some (item, self') → packet_step self self'.

(** A consumer that calls [get_result] [n] times: the items it obtains,
    or [None] when one of the calls stays suspended. *)
Fixpoint drain (n : nat) self
  : option (list (option (@GenerateResult ResultMeta))
            * @Packet GenerateConfig ResultMeta) :=
  match n with
  | O => Some ([], self)
  | S n' =>
      match get_result self with
      | None => None
      | Some (item, self') =>
          match drain n' self' with
          | None => None
          | Some (taken, self'') => Some (item :: taken, self'')
          end
      end
  end.

(** The token ids of the results, terminal markers left out. *)
Definition result_tokens (l : list (option (@GenerateResult ResultMeta)))
  : list Z :=
  token_id <$> omap id l.

End Callers.

Section PreparedBatch.

Context {GenerateConfig ResultMeta : Type}.
Implicit Types (packet : @Packet GenerateConfig ResultMeta)
               (batch : list (@Packet GenerateConfig ResultMeta)).

(** The dictionary [prepare_inputs] builds from the rows of the batch,
    the tag left by the second loop and the outcome of the test
    [model_name == 'chatglm2']. *)
Definition prepared_inputs (pad_token_id : pyobj) batch (tag : pyobj)
    (chatglm2 : bool) : gmap string pyobj :=
  let model_inputs : gmap string pyobj :=
    <["generate_type" := tag]>
      (<["position_ids" :=
           PyList (PyList <$> (position_row (max_seq_len batch) <$> batch))]>
         (<["input_ids" :=
              PyList (PyList <$>
                        (input_row pad_token_id (max_seq_len batch) <$> batch))]>
            (<["use_cache" := PyNone]>
               (<["attention_mask" := PyNone]>
                  (<["past_key_values" := PyNone]> ∅))))) in
  if chatglm2 then <["return_last_logit" := PyBool false]> model_inputs
  else model_inputs.

(** Two packets carry the same token sequences. *)
Definition same_tokens packet packet' : Prop :=
  input_ids (request packet) = input_ids (request packet')
  ∧ generate_ids packet = generate_ids packet'.

End PreparedBatch.

(** Row [i] of the two-dimensional entry [key] of a prepared batch. *)
Definition row_of (model_inputs : gmap string pyobj) (key : string) (i : nat)
  : option (list pyobj) :=
  match model_inputs !! key with
  | Some (PyList rows) =>
      match rows !! i with
      | Some (PyList row) => Some row
      | _ => None
      end
  | _ => None
  end.

(** The keys [prepare_inputs] always stores. *)
Definition model_input_keys : list string :=
  ["past_key_values"; "attention_mask"; "use_cache";
   "input_ids"; "position_ids"; "generate_type"].

(** An engine of a two-rank group with its messenger. *)
Definition sample_rank_engine (rank : Z) (inbox : list pyobj) : NpuEngine :=
  {| model_config := PyDict (<["model_name" := PyStr "llama2"]> ∅);
     pad_token_id := PyInt 0;
     world_size := 2;
     local_rank := rank;
     mlp_manager :=
       Some {| sent := []; inbox := inbox; connected := true |} |}.

(** An engine of a two-rank group whose link is down, nothing arrived. *)
Definition sample_cut_off_engine (rank : Z) : NpuEngine :=
  {| model_config := PyDict (<["model_name" := PyStr "llama2"]> ∅);
     pad_token_id := PyInt 0;
     world_size := 2;
     local_rank := rank;
     mlp_manager :=
       Some {| sent := []; inbox := []; connected := false |} |}.

(** What the leader prepares for one new packet with prompt [5, 7, 9]. *)
Definition sample_prepared : gmap string pyobj :=
  prepared_inputs (PyInt 0) [sample_packet PENDING [5; 7; 9] []]
    (PyStr "prefill") false.

(** Settles a closed decidable statement by evaluating its decision
    procedure. *)
Ltac by_evaluation := apply (bool_decide_unpack _); vm_compute; exact I.

(** ** Python lists *)

Lemma len_nonneg {A : Type} (l : list A) : 0 ≤ len l.
Proof. unfold len. lia. Qed.

Lemma len_zero_nil {A : Type} (l : list A) : len l = 0 → l = [].
Proof. destruct l; [done | unfold len; simpl; lia]. Qed.

Lemma len_app {A : Type} (l k : list A) : len (l ++ k) = len l + len k.
Proof. unfold len. rewrite length_app. lia. Qed.

Lemma len_fmap {A B : Type} (f : A → B) (l : list A) : len (f <$> l) = len l.
Proof. unfold len. by rewrite length_fmap. Qed.

Lemma len_py_repeat {A : Type} (x : A) (n : Z) : len (py_repeat x n) = Z.max 0 n.
Proof. unfold len, py_repeat. rewrite length_replicate. lia. Qed.

Lemma len_py_range (n : Z) : len (py_range n) = Z.max 0 n.
Proof. unfold len, py_range. rewrite length_fmap, length_seq. lia. Qed.

Lemma py_getitem_last_ok {A : Type} (l : list A) (x : A) :
  last l = Some x → py_getitem l (len l - 1) = Ok x.
Proof.
  intros Hlast. unfold py_getitem.
  assert (0 < len l) as Hpos.
  { destruct l; [done | unfold len; simpl; lia]. }
  destruct (len l - 1 <? 0) eqn:Hneg; [lia |].
  rewrite Hneg.
  replace (Z.to_nat (len l - 1)) with (Nat.pred (length l))
    by (unfold len in *; lia).
  rewrite <- last_lookup. by rewrite Hlast.
Qed.

(** ** The two loops of [prepare_inputs] *)

Section Loops.

Context {GenerateConfig ResultMeta : Type}.
Implicit Types (packet : @Packet GenerateConfig ResultMeta)
               (batch : list (@Packet GenerateConfig ResultMeta)).

Lemma cur_id_len_nonneg packet : 0 ≤ cur_id_len packet.
Proof.
  unfold cur_id_len.
  pose proof (len_nonneg (input_ids (request packet))).
  pose proof (len_nonneg (generate_ids packet)). lia.
Qed.

(** The first loop, started from any value [a] of [max_seq_len]. *)
Lemma max_loop_spec batch (a : Z) :
  let r := fold_left
             (λ max_seq_len packet,
                let cur_id_len := cur_id_len packet in
                if cur_id_len >? max_seq_len then cur_id_len else max_seq_len)
             batch a in
  a ≤ r
  ∧ Forall (λ packet, cur_id_len packet ≤ r) batch
  ∧ (r = a ∨ Exists (λ packet, cur_id_len packet = r) batch).
Proof.
  revert a. induction batch as [| p batch IH]; intros a; cbn zeta; simpl.
  - split; [lia |]. split; [constructor | by left].
  - set (a' := if cur_id_len p >? a then cur_id_len p else a).
    specialize (IH a'). cbn zeta in IH.
    destruct IH as (Hle & Hall & Hex).
    assert (a ≤ a' ∧ cur_id_len p ≤ a' ∧ (a' = a ∨ a' = cur_id_len p))
      as (Ha & Hp & Hcase).
    { unfold a'. destruct (cur_id_len p >? a) eqn:E; lia. }
    split; [lia |]. split.
    + constructor; [lia | done].
    + destruct Hex as [Hex | Hex]; [| right; by apply Exists_cons_tl].
      destruct Hcase as [Hcase | Hcase]; [left; lia |].
      right. apply Exists_cons_hd. lia.
Qed.

Lemma max_seq_len_is_max batch :
  batch ≠ [] → is_max_length batch (max_seq_len batch).
Proof.
  intros Hne. unfold is_max_length, max_seq_len.
  destruct (max_loop_spec batch (-1)) as (Hle & Hall & Hex).
  split; [| done].
  destruct Hex as [Heq | Hex]; [| done].
  destruct batch as [| p batch]; [done |].
  exfalso. apply Forall_cons in Hall as [Hp _].
  pose proof (cur_id_len_nonneg p). simpl in *. lia.
Qed.

Lemma is_max_length_unique batch (m n : Z) :
  is_max_length batch m → is_max_length batch n → m = n.
Proof.
  intros [Hem Ham] [Hen Han].
  apply Exists_exists in Hem as (p & Hp & <-).
  apply Exists_exists in Hen as (q & Hq & <-).
  rewrite Forall_forall in Ham, Han.
  specialize (Ham q Hq). specialize (Han p Hp). simpl in *. lia.
Qed.

Lemma is_max_length_max_seq_len batch (m : Z) :
  is_max_length batch m → max_seq_len batch = m.
Proof.
  intros Hm. apply (is_max_length_unique batch); [| done].
  apply max_seq_len_is_max. intros ->.
  destruct Hm as [Hex _]. by apply Exists_nil in Hex.
Qed.

(** An iteration of the second loop never raises. *)
Lemma prepare_row_ok (pad : pyobj) (m : Z) (l : locals) packet :
  prepare_row pad m l packet
  = Ok {| all_input_ids := all_input_ids l ++ [input_row pad m packet];
          all_position_ids := all_position_ids l ++ [position_row m packet];
          generate_type := Some (row_type packet) |}.
Proof.
  unfold prepare_row, input_row, position_row, row_type.
  destruct (len (generate_ids packet) =? 0) eqn:E; [done |].
  destruct (last (generate_ids packet)) as [t |] eqn:Hlast.
  - rewrite (py_getitem_last_ok _ _ Hlast). done.
  - apply last_None in Hlast. rewrite Hlast in E. done.
Qed.

Lemma for_each_prepare_row (pad : pyobj) (m : Z) batch (l : locals) :
  for_each (prepare_row pad m) batch l
  = Ok {| all_input_ids := all_input_ids l ++ (input_row pad m <$> batch);
          all_position_ids := all_position_ids l ++ (position_row m <$> batch);
          generate_type :=
            match last batch with
            | Some packet => Some (row_type packet)
            | None => generate_type l
            end |}.
Proof.
  revert l. induction batch as [| p batch IH]; intros l.
  - destruct l. simpl. by rewrite !app_nil_r.
  - simpl. rewrite prepare_row_ok. simpl. rewrite IH. simpl.
    rewrite <- !app_assoc. simpl. do 2 f_equal.
    destruct batch as [| q batch']; [done |].
    change (last (p :: q :: batch')) with (last (q :: batch')).
    destruct (last (q :: batch')) eqn:Hlast; [done |].
    by apply last_None in Hlast.
Qed.

End Loops.

(** ** Batch preparation with a complete configuration *)

Section Configured.

Context {GenerateConfig ResultMeta : Type}.
Implicit Types (packet : @Packet GenerateConfig ResultMeta)
               (batch : list (@Packet GenerateConfig ResultMeta)).

(** The keyword arguments of the call carry a pad token id and a model
    configuration that names its model. *)
Variables (kwargs d : gmap string pyobj) (model_name pad : pyobj).
Hypothesis kwargs_model_config : kwargs !! "model_config" = Some (PyDict d).
Hypothesis kwargs_pad_token_id : kwargs !! "pad_token_id" = Some pad.
Hypothesis config_model_name : d !! "model_name" = Some model_name.

(** What a call on a non-empty batch returns. *)
Lemma prepare_inputs_returns batch :
  batch ≠ [] →
  ∃ (model_inputs : gmap string pyobj) packet,
    last batch = Some packet
    ∧ prepare_inputs batch kwargs = Ok model_inputs
    ∧ model_inputs !! "input_ids"
      = Some (PyList (PyList <$> (input_row pad (max_seq_len batch) <$> batch)))
    ∧ model_inputs !! "position_ids"
      = Some (PyList (PyList <$> (position_row (max_seq_len batch) <$> batch)))
    ∧ model_inputs !! "generate_type" = Some (row_type packet).
Proof.
  intros Hne.
  destruct (last batch) as [q |] eqn:Hlast;
    [| by apply last_None in Hlast].
  unfold prepare_inputs, dict_getitem.
  rewrite kwargs_model_config, kwargs_pad_token_id. simpl.
  rewrite for_each_prepare_row. simpl. rewrite Hlast. simpl.
  unfold dict_getitem. rewrite config_model_name. simpl.
  destruct (py_eq_str model_name "chatglm2");
    eexists _, q; (split; [done |]); (split; [done |]);
    repeat split; by simplify_map_eq.
Qed.

Lemma len_input_row (m : Z) packet :
  cur_id_len packet ≤ m → len (input_row pad m packet) = m.
Proof.
  intros Hle. unfold input_row.
  destruct (len (generate_ids packet) =? 0) eqn:E.
  - rewrite !len_app, !len_fmap, len_py_repeat. unfold cur_id_len in *. lia.
  - pose proof (len_nonneg (input_ids (request packet))).
    pose proof (len_nonneg (generate_ids packet)).
    destruct (last (generate_ids packet)) eqn:Hlast.
    + change (len (PyInt z :: py_repeat pad (m - 1)))
        with (len ([PyInt z] ++ py_repeat pad (m - 1))).
      rewrite len_app, len_py_repeat. unfold cur_id_len in *.
      change (len [PyInt z]) with 1. lia.
    + apply last_None in Hlast. rewrite Hlast in E. done.
Qed.

Lemma len_position_row (m : Z) packet :
  cur_id_len packet ≤ m → len (position_row m packet) = m.
Proof.
  intros Hle. unfold position_row.
  pose proof (len_nonneg (input_ids (request packet))).
  pose proof (len_nonneg (generate_ids packet)).
  destruct (len (generate_ids packet) =? 0) eqn:E.
  - rewrite len_fmap, len_py_range. unfold cur_id_len in *. lia.
  - change (len (PyInt (m - 1) :: py_repeat (PyInt 0) (m - 1)))
      with (len ([PyInt (m - 1)] ++ py_repeat (PyInt 0) (m - 1))).
    rewrite len_app, len_py_repeat. unfold cur_id_len in *.
    change (len [PyInt (m - 1)]) with 1. lia.
Qed.

(** C1. In a call with a complete configuration, a packet of the batch
    that has no generated token yet yields a prefill row: its row of
    [input_ids] is its prompt followed by [pad_token_id] up to the batch's
    max length [m] (so the row has length [m]), and its row of
    [position_ids] is [0 .. m-1]. In particular, with [pad_token_id = 0],
    a packet with prompt [[5, 7, 9]] alone in the batch gives
    [input_ids = [[5,7,9]]], [position_ids = [[0,1,2]]] and
    [generate_type = "prefill"]. *)
Theorem prepare_inputs_prefill_row :
  (∀ batch (i : nat) packet (m : Z),
     batch !! i = Some packet →
     len (generate_ids packet) = 0 →
     is_max_length batch m →
     ∃ (model_inputs : gmap string pyobj) (ids pos : list (list pyobj))
       (row : list pyobj),
       prepare_inputs batch kwargs = Ok model_inputs
       ∧ model_inputs !! "input_ids" = Some (PyList (PyList <$> ids))
       ∧ model_inputs !! "position_ids" = Some (PyList (PyList <$> pos))
       ∧ ids !! i = Some row
       ∧ row = (PyInt <$> input_ids (request packet))
               ++ py_repeat pad (m - len (input_ids (request packet)))
       ∧ len row = m
       ∧ pos !! i = Some (PyInt <$> py_range m))
  ∧ (∀ packet,
       input_ids (request packet) = [5; 7; 9] →
       generate_ids packet = [] →
       pad = PyInt 0 →
       is_max_length [packet] 3
       ∧ ∃ model_inputs : gmap string pyobj,
           prepare_inputs [packet] kwargs = Ok model_inputs
           ∧ model_inputs !! "input_ids"
             = Some (PyList [PyList [PyInt 5; PyInt 7; PyInt 9]])
           ∧ model_inputs !! "position_ids"
             = Some (PyList [PyList [PyInt 0; PyInt 1; PyInt 2]])
           ∧ model_inputs !! "generate_type" = Some (PyStr "prefill")).
Proof.
  split.
  - intros batch i packet m Hi Hgen Hmax.
    assert (batch ≠ []) as Hne by (intros ->; done).
    destruct (prepare_inputs_returns batch Hne)
      as (mi & q & _ & Hret & Hids & Hpos & _).
    rewrite (is_max_length_max_seq_len _ _ Hmax) in Hids, Hpos.
    assert (cur_id_len packet ≤ m) as Hle.
    { destruct Hmax as [_ Hall]. rewrite Forall_forall in Hall.
      apply Hall. by eapply list_elem_of_lookup_2. }
    exists mi, (input_row pad m <$> batch), (position_row m <$> batch),
      (input_row pad m packet).
    split; [done |]. split; [done |]. split; [done |].
    split; [by rewrite list_lookup_fmap, Hi |].
    split; [| split].
    + unfold input_row, cur_id_len. rewrite Hgen. simpl.
      apply len_zero_nil in Hgen. rewrite Hgen. simpl.
      do 2 f_equal. unfold len. simpl. lia.
    + by apply len_input_row.
    + rewrite list_lookup_fmap, Hi. simpl.
      unfold position_row. by rewrite Hgen.
  - intros packet Hprompt Hgen Hpad.
    assert (cur_id_len packet = 3) as Hcur.
    { unfold cur_id_len. by rewrite Hprompt, Hgen. }
    split.
    { split; repeat constructor; lia. }
    destruct (prepare_inputs_returns [packet]) as
      (mi & q & Hlast & Hret & Hids & Hpos & Htype); [done |].
    simpl in Hlast. injection Hlast as <-.
    exists mi. split; [done |].
    unfold max_seq_len in Hids, Hpos. simpl in Hids, Hpos.
    rewrite Hcur in Hids, Hpos. simpl in Hids, Hpos.
    unfold input_row, cur_id_len in Hids.
    unfold position_row in Hpos. unfold row_type in Htype.
    rewrite Hprompt, Hgen, Hpad in *. done.
Qed.

(** C2. In a call with a complete configuration, a packet of the batch
    with at least one generated token yields a decode row: its row of
    [input_ids] is its most recently generated token followed by
    [pad_token_id] up to the batch's max length [m], and its row of
    [position_ids] is [[m-1, 0, 0, ...]]. In particular, with
    [pad_token_id = 0], [generate_ids = [42]] and max length 4 the rows
    are [[42,0,0,0]] and [[3,0,0,0]]. *)
Theorem prepare_inputs_decode_row :
  (∀ batch (i : nat) packet (m : Z),
     batch !! i = Some packet →
     1 ≤ len (generate_ids packet) →
     is_max_length batch m →
     ∃ (model_inputs : gmap string pyobj) (ids pos : list (list pyobj))
       (row : list pyobj) (t : Z),
       prepare_inputs batch kwargs = Ok model_inputs
       ∧ model_inputs !! "input_ids" = Some (PyList (PyList <$> ids))
       ∧ model_inputs !! "position_ids" = Some (PyList (PyList <$> pos))
       ∧ last (generate_ids packet) = Some t
       ∧ ids !! i = Some row
       ∧ row = [PyInt t] ++ py_repeat pad (m - 1)
       ∧ len row = m
       ∧ pos !! i = Some ([PyInt (m - 1)] ++ py_repeat (PyInt 0) (m - 1)))
  ∧ (∀ batch (i : nat) packet,
       batch !! i = Some packet →
       generate_ids packet = [42] →
       is_max_length batch 4 →
       pad = PyInt 0 →
       ∃ (model_inputs : gmap string pyobj) (ids pos : list (list pyobj)),
         prepare_inputs batch kwargs = Ok model_inputs
         ∧ model_inputs !! "input_ids" = Some (PyList (PyList <$> ids))
         ∧ model_inputs !! "position_ids" = Some (PyList (PyList <$> pos))
         ∧ ids !! i = Some [PyInt 42; PyInt 0; PyInt 0; PyInt 0]
         ∧ pos !! i = Some [PyInt 3; PyInt 0; PyInt 0; PyInt 0]).
Proof.
  assert (∀ batch (i : nat) packet (m : Z),
     batch !! i = Some packet →
     1 ≤ len (generate_ids packet) →
     is_max_length batch m →
     ∃ (model_inputs : gmap string pyobj) (ids pos : list (list pyobj))
       (row : list pyobj) (t : Z),
       prepare_inputs batch kwargs = Ok model_inputs
       ∧ model_inputs !! "input_ids" = Some (PyList (PyList <$> ids))
       ∧ model_inputs !! "position_ids" = Some (PyList (PyList <$> pos))
       ∧ last (generate_ids packet) = Some t
       ∧ ids !! i = Some row
       ∧ row = [PyInt t] ++ py_repeat pad (m - 1)
       ∧ len row = m
       ∧ pos !! i = Some ([PyInt (m - 1)] ++ py_repeat (PyInt 0) (m - 1)))
    as Hgeneral.
  { intros batch i packet m Hi Hgen Hmax.
    assert (batch ≠ []) as Hne by (intros ->; done).
    destruct (prepare_inputs_returns batch Hne)
      as (mi & q & _ & Hret & Hids & Hpos & _).
    rewrite (is_max_length_max_seq_len _ _ Hmax) in Hids, Hpos.
    assert (cur_id_len packet ≤ m) as Hle.
    { destruct Hmax as [_ Hall]. rewrite Forall_forall in Hall.
      apply Hall. by eapply list_elem_of_lookup_2. }
    assert ((len (generate_ids packet) =? 0) = false) as Hdec by lia.
    destruct (last (generate_ids packet)) as [t |] eqn:Hlast; last first.
    { apply last_None in Hlast. rewrite Hlast in Hgen. done. }
    exists mi, (input_row pad m <$> batch), (position_row m <$> batch),
      (input_row pad m packet), t.
    split; [done |]. split; [done |]. split; [done |]. split; [done |].
    split; [by rewrite list_lookup_fmap, Hi |].
    split; [| split].
    - unfold input_row. by rewrite Hdec, Hlast.
    - by apply len_input_row.
    - rewrite list_lookup_fmap, Hi. simpl.
      unfold position_row. by rewrite Hdec. }
  split; [exact Hgeneral |].
  intros batch i packet Hi Hgen Hmax Hpad.
  destruct (Hgeneral batch i packet 4 Hi) as
    (mi & ids & pos & row & t & Hret & Hids & Hpos & Hlast & Hrow & -> & _ & Hp);
    [by rewrite Hgen | done |].
  rewrite Hgen in Hlast. injection Hlast as <-.
  exists mi, ids, pos. rewrite Hpad in Hrow. done.
Qed.

(** C3. In a call with a complete configuration on a non-empty batch,
    the batch has a max length [m] (the maximum over its packets of
    [len(request.input_ids) + len(generate_ids)]), the result holds one
    row of [input_ids] and one row of [position_ids] per packet, and
    every one of these rows has length [m]. *)
Theorem prepare_inputs_row_lengths batch :
  batch ≠ [] →
  ∃ (m : Z) (model_inputs : gmap string pyobj) (ids pos : list (list pyobj)),
    is_max_length batch m
    ∧ prepare_inputs batch kwargs = Ok model_inputs
    ∧ model_inputs !! "input_ids" = Some (PyList (PyList <$> ids))
    ∧ model_inputs !! "position_ids" = Some (PyList (PyList <$> pos))
    ∧ length ids = length batch
    ∧ length pos = length batch
    ∧ Forall (λ row, len row = m) ids
    ∧ Forall (λ row, len row = m) pos.
Proof.
  intros Hne.
  destruct (prepare_inputs_returns batch Hne)
    as (mi & q & _ & Hret & Hids & Hpos & _).
  pose proof (max_seq_len_is_max batch Hne) as Hmax.
  exists (max_seq_len batch), mi,
    (input_row pad (max_seq_len batch) <$> batch),
    (position_row (max_seq_len batch) <$> batch).
  split; [done |]. split; [done |]. split; [done |]. split; [done |].
  rewrite !length_fmap. split; [done |]. split; [done |].
  destruct Hmax as [_ Hall].
  split; apply Forall_fmap; eapply Forall_impl; try exact Hall;
    intros p Hp; simpl in *.
  - by apply len_input_row.
  - by apply len_position_row.
Qed.

(** C8. In a call with a complete configuration on a non-empty batch,
    the result carries one [generate_type] tag, decided by the last
    packet of the list alone: ["prefill"] when that packet has no
    generated token, ["decode"] when it has at least one, whatever the
    packets in front of it are. *)
Theorem prepare_inputs_generate_type batch front packet :
  batch = front ++ [packet] →
  ∃ model_inputs : gmap string pyobj,
    prepare_inputs batch kwargs = Ok model_inputs
    ∧ (len (generate_ids packet) = 0 →
       model_inputs !! "generate_type" = Some (PyStr "prefill"))
    ∧ (1 ≤ len (generate_ids packet) →
       model_inputs !! "generate_type" = Some (PyStr "decode")).
Proof.
  intros ->.
  destruct (prepare_inputs_returns (front ++ [packet]))
    as (mi & q & Hlast & Hret & _ & _ & Htype).
  { by destruct front. }
  rewrite last_snoc in Hlast. injection Hlast as <-.
  exists mi. split; [done |]. unfold row_type in Htype.
  split; intros Hgen.
  - by rewrite Hgen in Htype.
  - by replace (len (generate_ids packet) =? 0) with false in Htype by lia.
Qed.

End Configured.

(** ** Batch preparation that fails *)

Section Failures.

Context {GenerateConfig ResultMeta : Type}.
Implicit Types (packet : @Packet GenerateConfig ResultMeta)
               (batch : list (@Packet GenerateConfig ResultMeta)).

(** C4, as amended. A call on the empty packet list never returns a
    result. It raises [KeyError] when the [model_config] or the
    [pad_token_id] keyword is absent, and otherwise [UnboundLocalError]:
    [generate_type] is read although no iteration has assigned it. The
    exception is in no case an [EmptyBatchError]. *)
Theorem prepare_inputs_empty_batch (kwargs : gmap string pyobj) :
  ∃ e : exn,
    prepare_inputs (@nil (@Packet GenerateConfig ResultMeta)) kwargs = Raise e
    ∧ e = match kwargs !! "model_config", kwargs !! "pad_token_id" with
          | None, _ => KeyError "model_config"
          | Some _, None => KeyError "pad_token_id"
          | Some _, Some _ => UnboundLocalError "generate_type"
          end
    ∧ exn_class e ≠ "EmptyBatchError".
Proof.
  unfold prepare_inputs, dict_getitem.
  destruct (kwargs !! "model_config") as [cfg |];
    [destruct (kwargs !! "pad_token_id") as [pad |] |];
    simpl; eexists; (split; [reflexivity |]); split; done.
Qed.

(** C5, as amended. A call whose configuration lacks a required key
    fails with [KeyError] on that key: on every batch when the keyword
    [model_config] or the keyword [pad_token_id] is absent, and on every
    non-empty batch when the configuration dictionary has no
    [model_name]. *)
Theorem prepare_inputs_missing_key batch (kwargs : gmap string pyobj) :
  (kwargs !! "model_config" = None →
   prepare_inputs batch kwargs = Raise (KeyError "model_config"))
  ∧ (is_Some (kwargs !! "model_config") →
     kwargs !! "pad_token_id" = None →
     prepare_inputs batch kwargs = Raise (KeyError "pad_token_id"))
  ∧ (∀ d : gmap string pyobj,
       kwargs !! "model_config" = Some (PyDict d) →
       is_Some (kwargs !! "pad_token_id") →
       d !! "model_name" = None →
       batch ≠ [] →
       prepare_inputs batch kwargs = Raise (KeyError "model_name")).
Proof.
  unfold prepare_inputs, dict_getitem. split; [| split].
  - by intros ->.
  - by intros [cfg ->] ->.
  - intros d -> [pad ->] Hname Hne. simpl.
    rewrite for_each_prepare_row. simpl.
    destruct (last batch) as [q |] eqn:Hlast;
      [| by apply last_None in Hlast].
    simpl. unfold dict_getitem. by rewrite Hname.
Qed.

End Failures.

(** ** The packet operations *)

Section PacketOperations.

Context {GenerateConfig ResultMeta : Type}.
Implicit Types (self : @Packet GenerateConfig ResultMeta)
               (res : @GenerateResult ResultMeta).

Lemma items_finish self :
  items (result_queue (finish self))
  = items (result_queue self) ++ [terminal_marker].
Proof. reflexivity. Qed.

Lemma get_result_head self :
  get_result self
  = match items (result_queue self) with
    | [] =>
        if closed (result_queue self) then
          Some (terminal_marker,
                {| request := request self;
                   result_queue := result_queue self;
                   state := state self;
                   generate_ids := generate_ids self;
                   exception := exception self |})
        else None
    | item :: rest =>
        Some (item,
              {| request := request self;
                 result_queue :=
                   {| items := rest;
                      closed := closed (result_queue self)
                                || is_terminal_marker item |};
                 state := state self;
                 generate_ids := generate_ids self;
                 exception := exception self |})
    end.
Proof.
  unfold get_result, ResultQueue_get.
  destruct (items (result_queue self)); [| done].
  by destruct (closed (result_queue self)).
Qed.

(** C7, as amended. One call of [finish] sets the state to [FINISH] and
    appends exactly one terminal marker to the result channel, leaving
    every other attribute as it was; afterwards [is_finished] answers
    true and [get_result] is not suspended: it returns the oldest item
    of the channel, which is the terminal marker when the channel was
    empty before [finish], and otherwise the item that was waiting at
    the head of the channel before [finish], be it an earlier result or
    the terminal marker of an earlier [finish]. *)
Theorem finish_delivers_terminal_marker self :
  state (finish self) = FINISH
  ∧ items (result_queue (finish self))
    = items (result_queue self) ++ [terminal_marker]
  ∧ request (finish self) = request self
  ∧ generate_ids (finish self) = generate_ids self
  ∧ exception (finish self) = exception self
  ∧ is_finished (finish self) = true
  ∧ (∃ item self',
       get_result (finish self) = Some (item, self')
       ∧ head (items (result_queue self) ++ [terminal_marker]) = Some item
       ∧ items (result_queue self')
         = tail (items (result_queue self) ++ [terminal_marker]))
  ∧ (return_q_empty self = true →
     ∃ self',
       get_result (finish self) = Some (terminal_marker, self')
       ∧ return_q_empty self' = true)
  ∧ (∀ item rest,
       items (result_queue self) = item :: rest →
       ∃ self',
         get_result (finish self) = Some (item, self')
         ∧ items (result_queue self') = rest ++ [terminal_marker])
  ∧ (∀ res rest,
       items (result_queue self) = Some res :: rest →
       ∃ self', get_result (finish self) = Some (Some res, self')).
Proof.
  repeat (split; [reflexivity |]).
  rewrite get_result_head, items_finish.
  unfold return_q_empty, ResultQueue_empty.
  destruct (items (result_queue self)) as [| item rest] eqn:Hitems; simpl.
  - split; [by eexists _, _ |]. split; [| split; done].
    intros _. by eexists.
  - split; [by eexists _, _ |]. split; [done |]. split.
    + intros item' rest' [= -> ->]. by eexists.
    + intros res rest' [= -> ->]. by eexists.
Qed.

(** C10. [error] changes nothing: the packet after the call is the packet
    before it, so the state, the generated ids, the stored exception and
    the content of the result channel are as before; no terminal marker
    is appended, and a consumer that [get_result] left suspended before
    the call is still suspended after it. *)
Theorem error_changes_nothing self :
  error self = self
  ∧ state (error self) = state self
  ∧ generate_ids (error self) = generate_ids self
  ∧ exception (error self) = exception self
  ∧ items (result_queue (error self)) = items (result_queue self)
  ∧ get_result (error self) = get_result self
  ∧ (get_result self = None → get_result (error self) = None).
Proof. repeat split; done. Qed.

End PacketOperations.

(** ** Broadcasting on a single rank *)

(** C9, as amended. With a rank count of 1, [broadcast_inputs] returns
    the tuple of its positional arguments and leaves the engine, its
    messenger included, as it was: nothing is sent, nothing is received
    and the call is never suspended. Called on one argument [x] it
    returns the one-element tuple [(x,)], whose item 0 is [x]. *)
Theorem broadcast_inputs_single_rank (self : NpuEngine) (args : list pyobj) :
  world_size self = 1 →
  broadcast_inputs self args = Ok (Some (PyTuple args, self))
  ∧ (∀ x : pyobj, args = [x] → py_index (PyTuple args) 0 = Ok x).
Proof.
  intros Hws. unfold broadcast_inputs. rewrite Hws. simpl.
  split; [done |]. by intros x ->.
Qed.

(** ** The statements at concrete inputs *)

Lemma prepare_inputs_prefill_row_witness :
  (∃ (model_inputs : gmap string pyobj) (ids pos : list (list pyobj)),
     prepare_inputs
       [sample_packet RUNNING [1; 2; 3] [42]; sample_packet PENDING [5; 7] []]
       (sample_kwargs 0 "llama2") = Ok model_inputs
     ∧ model_inputs !! "input_ids" = Some (PyList (PyList <$> ids))
     ∧ model_inputs !! "position_ids" = Some (PyList (PyList <$> pos))
     ∧ ids !! 1%nat = Some [PyInt 5; PyInt 7; PyInt 0; PyInt 0]
     ∧ pos !! 1%nat = Some [PyInt 0; PyInt 1; PyInt 2; PyInt 3])
  ∧ (∃ model_inputs : gmap string pyobj,
       prepare_inputs [sample_packet PENDING [5; 7; 9] []]
         (sample_kwargs 0 "llama2") = Ok model_inputs
       ∧ model_inputs !! "input_ids"
         = Some (PyList [PyList [PyInt 5; PyInt 7; PyInt 9]])
       ∧ model_inputs !! "position_ids"
         = Some (PyList [PyList [PyInt 0; PyInt 1; PyInt 2]])
       ∧ model_inputs !! "generate_type" = Some (PyStr "prefill")).
Proof.
  destruct (prepare_inputs_prefill_row (GenerateConfig := unit)
              (ResultMeta := unit) (sample_kwargs 0 "llama2")
              (<["model_name" := PyStr "llama2"]> ∅) (PyStr "llama2")
              (PyInt 0) eq_refl eq_refl eq_refl) as [Hgeneral Hexample].
  split.
  - destruct (Hgeneral
                [sample_packet RUNNING [1; 2; 3] [42];
                 sample_packet PENDING [5; 7] []]
                1%nat (sample_packet PENDING [5; 7] []) 4 eq_refl eq_refl)
      as (mi & ids & pos & row & Hret & Hids & Hpos & Hrow & -> & _ & Hp).
    { by_evaluation. }
    by exists mi, ids, pos.
  - destruct (Hexample (sample_packet PENDING [5; 7; 9] [])
                eq_refl eq_refl eq_refl) as [_ H].
    exact H.
Defined.

Lemma prepare_inputs_decode_row_witness :
  ∃ (model_inputs : gmap string pyobj) (ids pos : list (list pyobj)),
    prepare_inputs
      [sample_packet PENDING [5; 7] []; sample_packet RUNNING [1; 2; 3] [42]]
      (sample_kwargs 0 "llama2") = Ok model_inputs
    ∧ model_inputs !! "input_ids" = Some (PyList (PyList <$> ids))
    ∧ model_inputs !! "position_ids" = Some (PyList (PyList <$> pos))
    ∧ ids !! 1%nat = Some [PyInt 42; PyInt 0; PyInt 0; PyInt 0]
    ∧ pos !! 1%nat = Some [PyInt 3; PyInt 0; PyInt 0; PyInt 0].
Proof.
  destruct (prepare_inputs_decode_row (GenerateConfig := unit)
              (ResultMeta := unit) (sample_kwargs 0 "llama2")
              (<["model_name" := PyStr "llama2"]> ∅) (PyStr "llama2")
              (PyInt 0) eq_refl eq_refl eq_refl) as [_ Hexample].
  apply (Hexample _ 1%nat (sample_packet RUNNING [1; 2; 3] [42]));
    [reflexivity | reflexivity | | reflexivity].
  by_evaluation.
Defined.

Lemma prepare_inputs_row_lengths_witness :
  ∃ (m : Z) (model_inputs : gmap string pyobj) (ids pos : list (list pyobj)),
    is_max_length
      [sample_packet PENDING [5; 7] []; sample_packet RUNNING [1; 2; 3] [42]] m
    ∧ prepare_inputs
        [sample_packet PENDING [5; 7] []; sample_packet RUNNING [1; 2; 3] [42]]
        (sample_kwargs 0 "chatglm2") = Ok model_inputs
    ∧ model_inputs !! "input_ids" = Some (PyList (PyList <$> ids))
    ∧ model_inputs !! "position_ids" = Some (PyList (PyList <$> pos))
    ∧ length ids = 2%nat
    ∧ length pos = 2%nat
    ∧ Forall (λ row, len row = m) ids
    ∧ Forall (λ row, len row = m) pos.
Proof.
  apply (prepare_inputs_row_lengths (GenerateConfig := unit)
           (ResultMeta := unit) (sample_kwargs 0 "chatglm2")
           (<["model_name" := PyStr "chatglm2"]> ∅) (PyStr "chatglm2")
           (PyInt 0) eq_refl eq_refl eq_refl).
  discriminate.
Defined.

Lemma prepare_inputs_generate_type_witness :
  (∃ model_inputs : gmap string pyobj,
     prepare_inputs
       [sample_packet PENDING [5; 7] []; sample_packet RUNNING [1; 2; 3] [42]]
       (sample_kwargs 0 "llama2") = Ok model_inputs
     ∧ model_inputs !! "generate_type" = Some (PyStr "decode"))
  ∧ (∃ model_inputs : gmap string pyobj,
       prepare_inputs
         [sample_packet RUNNING [1; 2; 3] [42]; sample_packet PENDING [5; 7] []]
         (sample_kwargs 0 "llama2") = Ok model_inputs
       ∧ model_inputs !! "generate_type" = Some (PyStr "prefill")).
Proof.
  split.
  - destruct (prepare_inputs_generate_type (GenerateConfig := unit)
                (ResultMeta := unit) (sample_kwargs 0 "llama2")
                (<["model_name" := PyStr "llama2"]> ∅) (PyStr "llama2")
                (PyInt 0) eq_refl eq_refl eq_refl
                [sample_packet PENDING [5; 7] [];
                 sample_packet RUNNING [1; 2; 3] [42]]
                [sample_packet PENDING [5; 7] []]
                (sample_packet RUNNING [1; 2; 3] [42]) eq_refl)
      as (mi & Hret & _ & Hdecode).
    exists mi. split; [exact Hret |]. apply Hdecode. vm_compute. discriminate.
  - destruct (prepare_inputs_generate_type (GenerateConfig := unit)
                (ResultMeta := unit) (sample_kwargs 0 "llama2")
                (<["model_name" := PyStr "llama2"]> ∅) (PyStr "llama2")
                (PyInt 0) eq_refl eq_refl eq_refl
                [sample_packet RUNNING [1; 2; 3] [42];
                 sample_packet PENDING [5; 7] []]
                [sample_packet RUNNING [1; 2; 3] [42]]
                (sample_packet PENDING [5; 7] []) eq_refl)
      as (mi & Hret & Hprefill & _).
    exists mi. split; [exact Hret |]. apply Hprefill. reflexivity.
Defined.

Lemma prepare_inputs_missing_key_witness :
  prepare_inputs [sample_packet PENDING [5; 7; 9] []] ∅
  = Raise (KeyError "model_config")
  ∧ prepare_inputs [sample_packet PENDING [5; 7; 9] []] sample_kwargs_no_pad
    = Raise (KeyError "pad_token_id")
  ∧ prepare_inputs [sample_packet PENDING [5; 7; 9] []] sample_kwargs_no_name
    = Raise (KeyError "model_name").
Proof.
  split; [| split].
  - apply (prepare_inputs_missing_key
             [sample_packet PENDING [5; 7; 9] []] ∅). reflexivity.
  - apply (prepare_inputs_missing_key
             [sample_packet PENDING [5; 7; 9] []] sample_kwargs_no_pad).
    + eexists. reflexivity.
    + reflexivity.
  - apply (proj2 (proj2 (prepare_inputs_missing_key
                           [sample_packet PENDING [5; 7; 9] []]
                           sample_kwargs_no_name))
             (<["model_path" := PyStr "/models"]> ∅)).
    + reflexivity.
    + eexists. reflexivity.
    + reflexivity.
    + discriminate.
Defined.

Lemma finish_delivers_terminal_marker_witness :
  (∃ self',
     get_result (finish (sample_new_packet [5; 7; 9]))
     = Some (terminal_marker, self')
     ∧ return_q_empty self' = true)
  ∧ (∃ self',
       get_result
         (finish (add_result (sample_new_packet [5; 7; 9]) (sample_result 42)))
       = Some (Some (sample_result 42), self')
       ∧ items (result_queue self') = [terminal_marker])
  ∧ (∃ self',
       get_result (finish (finish (sample_new_packet [5; 7; 9])))
       = Some (terminal_marker, self')
       ∧ items (result_queue self') = [terminal_marker]).
Proof.
  split; [| split].
  - apply (finish_delivers_terminal_marker
             (sample_new_packet [5; 7; 9])).
    reflexivity.
  - destruct (finish_delivers_terminal_marker
                (add_result (sample_new_packet [5; 7; 9]) (sample_result 42)))
      as (_ & _ & _ & _ & _ & _ & _ & _ & Hhead & _).
    apply (Hhead (Some (sample_result 42)) []). reflexivity.
  - destruct (finish_delivers_terminal_marker
                (finish (sample_new_packet [5; 7; 9])))
      as (_ & _ & _ & _ & _ & _ & _ & _ & Hhead & _).
    apply (Hhead terminal_marker []). reflexivity.
Defined.

Lemma error_changes_nothing_witness :
  get_result (error (sample_packet RUNNING [5; 7; 9] [42])) = None.
Proof.
  apply (error_changes_nothing (sample_packet RUNNING [5; 7; 9] [42])).
  reflexivity.
Defined.

Lemma broadcast_inputs_single_rank_witness :
  broadcast_inputs (sample_engine 1 0) [sample_model_inputs]
  = Ok (Some (PyTuple [sample_model_inputs], sample_engine 1 0))
  ∧ py_index (PyTuple [sample_model_inputs]) 0 = Ok sample_model_inputs.
Proof.
  destruct (broadcast_inputs_single_rank (sample_engine 1 0)
              [sample_model_inputs] eq_refl) as [Hret Hitem].
  split; [exact Hret |]. apply Hitem. reflexivity.
Defined.

(** ** Where the code departs from the specification *)

(** Against C4 as stated: on the empty packet list, with both keywords
    present, the call raises [UnboundLocalError], not [EmptyBatchError]. *)
Lemma prepare_inputs_empty_batch_counterexample :
  prepare_inputs (@nil (@Packet unit unit)) (sample_kwargs 0 "llama2")
  = Raise (UnboundLocalError "generate_type")
  ∧ ¬ raises_class
        (prepare_inputs (@nil (@Packet unit unit)) (sample_kwargs 0 "llama2"))
        "EmptyBatchError".
Proof.
  split; [reflexivity |].
  intros (e & Hraise & Hclass).
  injection Hraise as <-. discriminate Hclass.
Qed.

(** Against C5 as stated: without [pad_token_id], and likewise without
    [model_name], the call raises [KeyError], not [ConfigurationError]. *)
Lemma prepare_inputs_missing_key_counterexample :
  prepare_inputs [sample_packet PENDING [5; 7; 9] []] sample_kwargs_no_pad
  = Raise (KeyError "pad_token_id")
  ∧ ¬ raises_class
        (prepare_inputs [sample_packet PENDING [5; 7; 9] []]
           sample_kwargs_no_pad)
        "ConfigurationError"
  ∧ ¬ raises_class
        (prepare_inputs [sample_packet PENDING [5; 7; 9] []]
           sample_kwargs_no_name)
        "ConfigurationError".
Proof.
  split; [reflexivity |].
  split; intros (e & Hraise & Hclass);
    injection Hraise as <-; discriminate Hclass.
Qed.

(** C6. A running packet is still running after [error]: its state has
    not become [ERROR]. *)
Lemma error_leaves_running_packet_running :
  state (error (sample_packet RUNNING [5; 7; 9] [42])) = RUNNING
  ∧ state (error (sample_packet RUNNING [5; 7; 9] [42])) ≠ ERROR.
Proof. split; [reflexivity | discriminate]. Qed.

(** Against C7 as stated: when a result is still in the channel,
    [get_result] after [finish] returns that result, not the terminal
    marker. *)
Lemma finish_get_result_counterexample :
  (∃ self',
     get_result
       (finish (add_result (sample_new_packet [5; 7; 9]) (sample_result 42)))
     = Some (Some (sample_result 42), self'))
  ∧ ¬ (∃ self',
         get_result
           (finish (add_result (sample_new_packet [5; 7; 9]) (sample_result 42)))
         = Some (terminal_marker, self')).
Proof.
  split; [by eexists |].
  intros (self' & Hget). discriminate Hget.
Qed.

(** Against C9 as stated: on a single rank, [broadcast_inputs(x)]
    returns the tuple [(x,)], which is not [x]. *)
Lemma broadcast_inputs_counterexample :
  broadcast_inputs (sample_engine 1 0) [sample_model_inputs]
  = Ok (Some (PyTuple [sample_model_inputs], sample_engine 1 0))
  ∧ ¬ (∃ self',
         broadcast_inputs (sample_engine 1 0) [sample_model_inputs]
         = Ok (Some (sample_model_inputs, self'))).
Proof.
  split; [reflexivity |].
  intros (self' & Hret). discriminate Hret.
Qed.

(** ** Sequences of packet operations *)

Section PacketSequences.

Context {GenerateConfig ResultMeta : Type}.
Implicit Types (self : @Packet GenerateConfig ResultMeta)
               (req : @GenerateRequest GenerateConfig)
               (res : @GenerateResult ResultMeta)
               (rs : list (@GenerateResult ResultMeta)).

Lemma is_finished_state self : is_finished self = true ↔ state self = FINISH.
Proof.
  unfold is_finished, PacketStatus_eqb.
  destruct (state self); simpl; split; intros H; done.
Qed.

Lemma result_tokens_app (l k : list (option (@GenerateResult ResultMeta))) :
  result_tokens (l ++ k) = result_tokens l ++ result_tokens k.
Proof. unfold result_tokens. by rewrite omap_app, fmap_app. Qed.

Lemma items_add_results self rs :
  items (result_queue (add_results self rs))
  = items (result_queue self) ++ (Some <$> rs).
Proof.
  revert self. induction rs as [| res rs IH]; intros self; simpl.
  - by rewrite app_nil_r.
  - unfold add_results in *. simpl. rewrite IH. simpl.
    by rewrite <- app_assoc.
Qed.

(** What one returning call changes. *)
Lemma packet_step_frame self self' :
  packet_step self self' →
  request self' = request self
  ∧ exception self' = exception self
  ∧ (state self' = state self ∨ state self' = FINISH)
  ∧ ∃ taken added,
      taken ++ items (result_queue self') = items (result_queue self) ++ added
      ∧ (length taken ≤ 1)%nat
      ∧ generate_ids self' = generate_ids self ++ result_tokens added.
Proof.
  intros Hstep. destruct Hstep as [self res | self | self | self item self' Hget].
  - repeat split; auto. exists [], [Some res].
    simpl. split; [done |]. split; [lia | done].
  - repeat split; auto. exists [], [terminal_marker].
    simpl. split; [done |]. split; [lia |]. by rewrite app_nil_r.
  - repeat split; auto. exists [], [].
    simpl. rewrite !app_nil_r. split; [done |]. split; [lia | done].
  - rewrite get_result_head in Hget.
    destruct (items (result_queue self)) as [| x rest] eqn:Hitems.
    + destruct (closed (result_queue self)); [| done].
      injection Hget as <- <-. simpl. repeat split; auto.
      exists [], []. simpl. rewrite Hitems, !app_nil_r.
      split; [done |]. split; [lia | done].
    + injection Hget as <- <-. simpl. repeat split; auto.
      exists [x], []. simpl. rewrite !app_nil_r. split; [done |].
      split; [lia | done].
Qed.

(** X1. [add_result] has no guard on the state: called once per result on
    a packet in any state, it extends [generate_ids] by the token ids of
    the results in call order, one id per call, and leaves the request,
    the state and the stored exception as they were. *)
Theorem add_results_generate_ids self rs :
  generate_ids (add_results self rs) = generate_ids self ++ (token_id <$> rs)
  ∧ len (generate_ids (add_results self rs)) = len (generate_ids self) + len rs
  ∧ request (add_results self rs) = request self
  ∧ state (add_results self rs) = state self
  ∧ exception (add_results self rs) = exception self.
Proof.
  revert self. induction rs as [| res rs IH]; intros self.
  - simpl. rewrite app_nil_r. unfold len. simpl.
    repeat split; try done. lia.
  - destruct (IH (add_result self res)) as (Hids & Hlen & Hreq & Hst & Hexc).
    change (add_results self (res :: rs))
      with (add_results (add_result self res) rs).
    rewrite Hlen, Hids, Hreq, Hst, Hexc. simpl.
    rewrite <- app_assoc. repeat split; try done.
    rewrite len_app. unfold len. simpl. lia.
Qed.

(** X2. Whatever methods are called on a packet after [__init__], in
    whatever order, its request stays the one it was created with, no
    exception is ever stored in it, and its state is [PENDING] or
    [FINISH]: no method of the packet makes it [RUNNING] or [ERROR]. *)
Theorem packet_methods_never_record_an_error req self :
  rtc packet_step (Packet_init req) self →
  request self = req
  ∧ exception self = None
  ∧ (state self = PENDING ∨ state self = FINISH)
  ∧ state self ≠ ERROR
  ∧ state self ≠ RUNNING.
Proof.
  intros Hrun.
  assert (request self = req ∧ exception self = None
          ∧ (state self = PENDING ∨ state self = FINISH)) as (Hreq & Hexc & Hst).
  { revert self Hrun. apply rtc_ind_r; [by auto |].
    intros y z Hrun Hstep IH.
    destruct IH as (Hreq & Hexc & Hst).
    destruct (packet_step_frame _ _ Hstep) as (Hreq' & Hexc' & Hst' & _).
    rewrite Hreq', Hexc'. repeat split; try done.
    destruct Hst' as [-> | ->]; auto. }
  repeat split; try done; destruct Hst as [-> | ->]; done.
Qed.

(** X3. Whatever methods are called on a packet after [__init__], the
    token ids of the results still waiting in its channel are the last
    entries of [generate_ids], in the same order: what a consumer has
    yet to read is always the tail of what was generated. *)
Theorem pending_results_are_tail_of_generate_ids req self :
  rtc packet_step (Packet_init req) self →
  ∃ delivered : list Z,
    generate_ids self
    = delivered ++ result_tokens (items (result_queue self)).
Proof.
  revert self. apply rtc_ind_r.
  - by exists [].
  - intros y z Hrun Hstep IH.
    destruct IH as (delivered & Hids).
    destruct (packet_step_frame _ _ Hstep)
      as (_ & _ & _ & taken & added & Hitems & _ & Hgen).
    exists (delivered ++ result_tokens taken).
    rewrite Hgen, Hids, <- !app_assoc. f_equal.
    rewrite <- !result_tokens_app. by rewrite Hitems.
Qed.

(** X5. [FINISH] is final for the methods of the packet: once
    [is_finished] answers true it keeps answering true after any further
    calls of [add_result], [get_result], [finish] and [error]. *)
Theorem is_finished_is_stable self self' :
  rtc packet_step self self' →
  is_finished self = true →
  is_finished self' = true.
Proof.
  intros Hrun Hfin. revert self' Hrun. apply rtc_ind_r; [done |].
  intros y z Hrun Hstep IH.
  apply is_finished_state. apply is_finished_state in IH.
  destruct (packet_step_frame _ _ Hstep) as (_ & _ & [-> | ->] & _); done.
Qed.

Lemma drain_items (l : list (option (@GenerateResult ResultMeta))) :
  ∀ self k,
    items (result_queue self) = l ++ k →
    ∃ self',
      drain (length l) self = Some (l, self')
      ∧ items (result_queue self') = k
      ∧ state self' = state self
      ∧ generate_ids self' = generate_ids self.
Proof.
  induction l as [| x l IH]; intros self k Hitems; simpl.
  - by exists self.
  - rewrite get_result_head, Hitems. simpl.
    edestruct IH as (self' & -> & Hk & Hst & Hgen); [reflexivity |].
    by exists self'.
Qed.

(** X4. Delivery is in generation order. On a packet whose channel is
    empty, after [add_result] for the results [rs] and one [finish], a
    consumer that calls [get_result] [len(rs) + 1] times is never
    suspended and obtains exactly the results in the order they were
    added and then the terminal marker; nothing is left in the channel,
    and the packet still holds all the generated ids. *)
Theorem results_are_delivered_in_order self rs :
  return_q_empty self = true →
  ∃ self',
    drain (length rs + 1)%nat (finish (add_results self rs))
    = Some ((Some <$> rs) ++ [terminal_marker], self')
    ∧ return_q_empty self' = true
    ∧ is_finished self' = true
    ∧ generate_ids self' = generate_ids self ++ (token_id <$> rs).
Proof.
  intros Hempty.
  assert (items (result_queue self) = []) as Hnil.
  { unfold return_q_empty, ResultQueue_empty in Hempty.
    by destruct (items (result_queue self)). }
  destruct (drain_items ((Some <$> rs) ++ [terminal_marker])
              (finish (add_results self rs)) [])
    as (self' & Hdrain & Hitems & Hst & Hgen).
  { rewrite app_nil_r, items_finish, items_add_results, Hnil. done. }
  rewrite length_app, length_fmap in Hdrain. simpl in Hdrain.
  exists self'. split; [done |].
  destruct (add_results_generate_ids self rs) as (Hids & _).
  split; [| split].
  - unfold return_q_empty, ResultQueue_empty. by rewrite Hitems.
  - apply is_finished_state. by rewrite Hst.
  - by rewrite Hgen.
Qed.

End PacketSequences.

(** ** The prepared batch in closed form *)

Section PreparedBatchFacts.

Context {GenerateConfig ResultMeta : Type}.
Implicit Types (packet : @Packet GenerateConfig ResultMeta)
               (batch : list (@Packet GenerateConfig ResultMeta)).

(** [prepare_inputs] as a sequence of four reads followed by the
    construction of the dictionary. *)
Lemma prepare_inputs_closed_form batch (kwargs : gmap string pyobj) :
  prepare_inputs batch kwargs
  = (cfg ← dict_getitem kwargs "model_config";
     pad ← dict_getitem kwargs "pad_token_id";
     tag ← read_local "generate_type" (row_type <$> last batch);
     name ← py_subscript cfg "model_name";
     Ok (prepared_inputs pad batch tag (py_eq_str name "chatglm2"))).
Proof.
  unfold prepare_inputs.
  destruct (dict_getitem kwargs "model_config") as [cfg | e]; [| done].
  destruct (dict_getitem kwargs "pad_token_id") as [pad | e]; [| done].
  simpl. rewrite for_each_prepare_row. simpl.
  destruct (last batch) as [q |]; [| done]. simpl.
  destruct (py_subscript cfg "model_name") as [name | e]; [| done]. simpl.
  unfold prepared_inputs. by destruct (py_eq_str name "chatglm2").
Qed.

(** What a call that returns tells about its arguments and its result. *)
Lemma prepare_inputs_Ok_inv batch (kwargs model_inputs : gmap string pyobj) :
  prepare_inputs batch kwargs = Ok model_inputs →
  ∃ (cfg pad name : pyobj) packet,
    kwargs !! "model_config" = Some cfg
    ∧ kwargs !! "pad_token_id" = Some pad
    ∧ last batch = Some packet
    ∧ py_subscript cfg "model_name" = Ok name
    ∧ model_inputs
      = prepared_inputs pad batch (row_type packet) (py_eq_str name "chatglm2").
Proof.
  rewrite prepare_inputs_closed_form. unfold dict_getitem.
  destruct (kwargs !! "model_config") as [cfg |]; [| done].
  destruct (kwargs !! "pad_token_id") as [pad |]; [| done]. simpl.
  destruct (last batch) as [q |]; [| done]. simpl.
  destruct (py_subscript cfg "model_name") as [name |] eqn:Hname; [| done].
  simpl. intros [= <-]. by exists cfg, pad, name, q.
Qed.

Lemma row_of_prepared_input_ids (pad tag : pyobj) batch (c : bool) (i : nat) :
  row_of (prepared_inputs pad batch tag c) "input_ids" i
  = input_row pad (max_seq_len batch) <$> batch !! i.
Proof.
  unfold row_of, prepared_inputs.
  destruct c; simplify_map_eq; rewrite !list_lookup_fmap;
    by destruct (batch !! i).
Qed.

Lemma row_of_prepared_position_ids (pad tag : pyobj) batch (c : bool) (i : nat) :
  row_of (prepared_inputs pad batch tag c) "position_ids" i
  = position_row (max_seq_len batch) <$> batch !! i.
Proof.
  unfold row_of, prepared_inputs.
  destruct c; simplify_map_eq; rewrite !list_lookup_fmap;
    by destruct (batch !! i).
Qed.

Lemma same_tokens_cur_id_len packet packet' :
  same_tokens packet packet' → cur_id_len packet = cur_id_len packet'.
Proof. intros [Hin Hgen]. unfold cur_id_len. by rewrite Hin, Hgen. Qed.

Lemma same_tokens_rows (pad : pyobj) (m : Z) packet packet' :
  same_tokens packet packet' →
  input_row pad m packet = input_row pad m packet'
  ∧ position_row m packet = position_row m packet'
  ∧ row_type packet = row_type packet'.
Proof.
  intros Hsame. pose proof (same_tokens_cur_id_len _ _ Hsame) as Hcur.
  destruct Hsame as [Hin Hgen].
  unfold input_row, position_row, row_type. by rewrite Hin, Hgen, Hcur.
Qed.

Lemma same_tokens_max_seq_len batch batch' :
  Forall2 same_tokens batch batch' → max_seq_len batch = max_seq_len batch'.
Proof.
  unfold max_seq_len. generalize (-1).
  intros a Hall. revert a.
  induction Hall as [| p q batch batch' Hpq Hall IH]; intros a; [done |].
  simpl. rewrite (same_tokens_cur_id_len _ _ Hpq). apply IH.
Qed.

End PreparedBatchFacts.

(** ** What a prepared batch contains and what it depends on *)

Section PreparedBatchProperties.

Context {GenerateConfig ResultMeta : Type}.
Implicit Types (packet : @Packet GenerateConfig ResultMeta)
               (batch : list (@Packet GenerateConfig ResultMeta)).

(** X6. Whenever [prepare_inputs] returns, the dictionary holds the three
    placeholders [past_key_values], [attention_mask] and [use_cache]
    with value [None], a [generate_type] that is ["prefill"] or
    ["decode"], and [input_ids] and [position_ids]; it holds
    [return_last_logit = False] exactly when the configured [model_name]
    is ['chatglm2'], and no other key. *)
Theorem prepare_inputs_keys batch (kwargs model_inputs : gmap string pyobj) :
  prepare_inputs batch kwargs = Ok model_inputs →
  model_inputs !! "past_key_values" = Some PyNone
  ∧ model_inputs !! "attention_mask" = Some PyNone
  ∧ model_inputs !! "use_cache" = Some PyNone
  ∧ (model_inputs !! "generate_type" = Some (PyStr "prefill")
     ∨ model_inputs !! "generate_type" = Some (PyStr "decode"))
  ∧ ∃ cfg name : pyobj,
      kwargs !! "model_config" = Some cfg
      ∧ py_subscript cfg "model_name" = Ok name
      ∧ model_inputs !! "return_last_logit"
        = (if py_eq_str name "chatglm2" then Some (PyBool false) else None)
      ∧ dom model_inputs
        = list_to_set model_input_keys
          ∪ (if py_eq_str name "chatglm2"
             then {["return_last_logit"]} else (∅ : gset string)).
Proof.
  intros Hret.
  destruct (prepare_inputs_Ok_inv _ _ _ Hret)
    as (cfg & pad & name & q & Hcfg & _ & _ & Hname & ->).
  unfold prepared_inputs, row_type, model_input_keys.
  do 3 (split; [by destruct (py_eq_str name "chatglm2"); simplify_map_eq |]).
  split.
  { destruct (py_eq_str name "chatglm2"), (len (generate_ids q) =? 0);
      [left | right | left | right]; by simplify_map_eq. }
  exists cfg, name. split; [done |]. split; [done |].
  destruct (py_eq_str name "chatglm2");
    (split; [by simplify_map_eq |]);
    rewrite !dom_insert_L, dom_empty_L; simpl; set_solver.
Qed.

(** X7. [prepare_inputs] reads nothing of a packet but its prompt and
    its generated ids, and nothing of the configuration but the pad token
    and whether [model_name] is ['chatglm2']: two calls that agree on
    these return the same dictionary, whatever the states, channels and
    stored exceptions of the packets and whatever else the keyword
    arguments and the configuration hold. *)
Theorem prepare_inputs_depends_on_tokens_only
    batch batch' (kwargs kwargs' d d' : gmap string pyobj)
    (name name' : pyobj) :
  Forall2 same_tokens batch batch' →
  kwargs !! "pad_token_id" = kwargs' !! "pad_token_id" →
  kwargs !! "model_config" = Some (PyDict d) →
  kwargs' !! "model_config" = Some (PyDict d') →
  d !! "model_name" = Some name →
  d' !! "model_name" = Some name' →
  py_eq_str name "chatglm2" = py_eq_str name' "chatglm2" →
  prepare_inputs batch kwargs = prepare_inputs batch' kwargs'.
Proof.
  intros Hall Hpad Hcfg Hcfg' Hname Hname' Heq.
  rewrite !prepare_inputs_closed_form. unfold dict_getitem.
  rewrite Hcfg, Hcfg', Hpad. simpl.
  destruct (kwargs' !! "pad_token_id") as [pad |]; [| done]. simpl.
  assert (row_type <$> last batch = row_type <$> last batch') as ->.
  { clear -Hall. induction Hall as [| p q l l' Hpq Hall IH]; [done |].
    destruct Hall as [| p' q' l l' Hpq' Hall].
    - simpl. f_equal. by apply (same_tokens_rows PyNone 0).
    - exact IH. }
  destruct (last batch') as [q |]; [| done]. simpl.
  unfold dict_getitem. rewrite Hname, Hname'. simpl. rewrite Heq.
  f_equal. unfold prepared_inputs.
  rewrite (same_tokens_max_seq_len _ _ Hall).
  generalize (max_seq_len batch'). intros m.
  assert (input_row pad m <$> batch = input_row pad m <$> batch') as ->.
  { clear -Hall. induction Hall as [| p q' l l' Hpq Hall IH]; [done |].
    rewrite !fmap_cons, IH. f_equal. by apply same_tokens_rows. }
  assert (position_row m <$> batch = position_row m <$> batch') as ->.
  { clear -Hall. induction Hall as [| p q' l l' Hpq Hall IH]; [done |].
    rewrite !fmap_cons, IH. f_equal. by apply (same_tokens_rows PyNone). }
  done.
Qed.

(** X9. The rows of a packet depend on the rest of the batch only
    through the max length: a packet placed in two batches of the same
    max length, prepared with the same pad token, gets the same row of
    [input_ids] and the same row of [position_ids] in both, wherever it
    stands in the lists. *)
Theorem rows_depend_on_max_length_only
    batch batch' (kwargs kwargs' model_inputs model_inputs' : gmap string pyobj)
    (i j : nat) packet (m : Z) :
  prepare_inputs batch kwargs = Ok model_inputs →
  prepare_inputs batch' kwargs' = Ok model_inputs' →
  kwargs !! "pad_token_id" = kwargs' !! "pad_token_id" →
  batch !! i = Some packet →
  batch' !! j = Some packet →
  is_max_length batch m →
  is_max_length batch' m →
  ∃ ids pos : list pyobj,
    row_of model_inputs "input_ids" i = Some ids
    ∧ row_of model_inputs' "input_ids" j = Some ids
    ∧ row_of model_inputs "position_ids" i = Some pos
    ∧ row_of model_inputs' "position_ids" j = Some pos.
Proof.
  intros Hret Hret' Hpad Hi Hj Hm Hm'.
  destruct (prepare_inputs_Ok_inv _ _ _ Hret)
    as (cfg & pad & name & q & _ & Hp & _ & _ & ->).
  destruct (prepare_inputs_Ok_inv _ _ _ Hret')
    as (cfg' & pad' & name' & q' & _ & Hp' & _ & _ & ->).
  assert (pad' = pad) as -> by congruence.
  rewrite !row_of_prepared_input_ids, !row_of_prepared_position_ids.
  rewrite (is_max_length_max_seq_len _ _ Hm),
    (is_max_length_max_seq_len _ _ Hm'), Hi, Hj.
  by eexists _, _.
Qed.

(** X10. The token handed to [add_result] is the token the next step
    feeds to the model: in a batch that holds the packet after
    [add_result(res)], its row of [input_ids] is [res.token_id] followed
    by [m - 1] pad tokens and its row of [position_ids] is
    [[m - 1, 0, ..., 0]], [m] being the max length of the batch. *)
Theorem add_result_feeds_next_step
    batch (kwargs model_inputs : gmap string pyobj) (pad : pyobj)
    (i : nat) packet (res : @GenerateResult ResultMeta) (m : Z) :
  prepare_inputs batch kwargs = Ok model_inputs →
  kwargs !! "pad_token_id" = Some pad →
  batch !! i = Some (add_result packet res) →
  is_max_length batch m →
  1 ≤ m
  ∧ row_of model_inputs "input_ids" i
    = Some (PyInt (token_id res) :: py_repeat pad (m - 1))
  ∧ row_of model_inputs "position_ids" i
    = Some (PyInt (m - 1) :: py_repeat (PyInt 0) (m - 1)).
Proof.
  intros Hret Hpad Hi Hm.
  destruct (prepare_inputs_Ok_inv _ _ _ Hret)
    as (cfg & pad' & name & q & _ & Hp & _ & _ & ->).
  assert (pad' = pad) as -> by congruence.
  rewrite row_of_prepared_input_ids, row_of_prepared_position_ids.
  rewrite (is_max_length_max_seq_len _ _ Hm), Hi. simpl.
  assert (len (generate_ids (add_result packet res))
          = len (generate_ids packet) + 1) as Hlen.
  { simpl. rewrite len_app. done. }
  pose proof (len_nonneg (generate_ids packet)) as Hgen.
  pose proof (len_nonneg (input_ids (request packet))) as Hin.
  split.
  - destruct Hm as [_ Hall]. rewrite Forall_forall in Hall.
    assert (cur_id_len (add_result packet res) ≤ m) as Hle.
    { apply Hall. by eapply list_elem_of_lookup_2. }
    unfold cur_id_len in Hle. rewrite Hlen in Hle. simpl in Hle. lia.
  - unfold input_row, position_row. rewrite Hlen.
    replace (len (generate_ids packet) + 1 =? 0) with false by lia.
    simpl. by rewrite last_snoc.
Qed.

(** X11. The position given to a decode row is the max length of the
    batch minus one, not the packet's own length minus one: the two
    agree exactly when the packet is one of the longest of the batch. *)
Theorem decode_position_is_batch_max
    batch (kwargs model_inputs : gmap string pyobj)
    (i : nat) packet (m : Z) :
  prepare_inputs batch kwargs = Ok model_inputs →
  batch !! i = Some packet →
  1 ≤ len (generate_ids packet) →
  is_max_length batch m →
  ∃ pos : list pyobj,
    row_of model_inputs "position_ids" i = Some pos
    ∧ head pos = Some (PyInt (m - 1))
    ∧ (head pos = Some (PyInt (cur_id_len packet - 1))
       ↔ cur_id_len packet = m).
Proof.
  intros Hret Hi Hgen Hm.
  destruct (prepare_inputs_Ok_inv _ _ _ Hret)
    as (cfg & pad & name & q & _ & _ & _ & _ & ->).
  rewrite row_of_prepared_position_ids.
  rewrite (is_max_length_max_seq_len _ _ Hm), Hi. simpl.
  unfold position_row.
  replace (len (generate_ids packet) =? 0) with false by lia.
  eexists. split; [done |]. simpl. split; [done |].
  split; [intros [= H]; lia | intros ->; done].
Qed.

(** X17. A decode row carries no history: any two packets of one batch
    that both have generated tokens get the same row of [position_ids],
    and rows of [input_ids] that start with their own most recent tokens
    and agree in every other column; the two rows of [input_ids] are
    equal exactly when the most recent tokens are, whatever the prompts
    and the earlier tokens are. *)
Theorem decode_rows_carry_no_history
    batch (kwargs model_inputs : gmap string pyobj)
    (i j : nat) packet packet' :
  prepare_inputs batch kwargs = Ok model_inputs →
  batch !! i = Some packet →
  batch !! j = Some packet' →
  1 ≤ len (generate_ids packet) →
  1 ≤ len (generate_ids packet') →
  ∃ (t t' : Z) (ids ids' pos : list pyobj),
    last (generate_ids packet) = Some t
    ∧ last (generate_ids packet') = Some t'
    ∧ row_of model_inputs "position_ids" i = Some pos
    ∧ row_of model_inputs "position_ids" j = Some pos
    ∧ row_of model_inputs "input_ids" i = Some ids
    ∧ row_of model_inputs "input_ids" j = Some ids'
    ∧ head ids = Some (PyInt t)
    ∧ head ids' = Some (PyInt t')
    ∧ tail ids = tail ids'
    ∧ (ids = ids' ↔ t = t').
Proof.
  intros Hret Hi Hj Hgen Hgen'.
  destruct (prepare_inputs_Ok_inv _ _ _ Hret)
    as (cfg & pad & name & q & _ & _ & _ & _ & ->).
  rewrite !row_of_prepared_input_ids, !row_of_prepared_position_ids, Hi, Hj.
  simpl. unfold input_row, position_row.
  replace (len (generate_ids packet) =? 0) with false by lia.
  replace (len (generate_ids packet') =? 0) with false by lia.
  destruct (last (generate_ids packet)) as [t |] eqn:Hlast; last first.
  { apply last_None in Hlast. rewrite Hlast in Hgen. done. }
  destruct (last (generate_ids packet')) as [t' |] eqn:Hlast'; last first.
  { apply last_None in Hlast'. rewrite Hlast' in Hgen'. done. }
  eexists t, t', _, _, _. repeat (split; [reflexivity |]).
  split; [intros [= ->]; done | intros ->; done].
Qed.

End PreparedBatchProperties.

(** ** The max length of a batch *)

Section MaxLength.

Context {GenerateConfig ResultMeta : Type}.
Implicit Types (packet : @Packet GenerateConfig ResultMeta)
               (batch : list (@Packet GenerateConfig ResultMeta)).

Local Abbreviation max_step :=
  (λ (max_seq_len : Z) (packet : @Packet GenerateConfig ResultMeta),
     let cur_id_len := cur_id_len packet in
     if cur_id_len >? max_seq_len then cur_id_len else max_seq_len).

Lemma max_step_max (a : Z) packet : max_step a packet = Z.max a (cur_id_len packet).
Proof. cbv beta zeta. destruct (cur_id_len packet >? a) eqn:E; lia. Qed.

Lemma max_loop_max batch (a b : Z) :
  fold_left max_step batch (Z.max a b) = Z.max a (fold_left max_step batch b).
Proof.
  revert b. induction batch as [| p batch IH]; intros b; [done |].
  simpl fold_left. rewrite !max_step_max, <- Z.max_assoc. apply IH.
Qed.

Lemma max_loop_perm batch batch' :
  batch ≡ₚ batch' →
  ∀ a : Z, fold_left max_step batch a = fold_left max_step batch' a.
Proof.
  induction 1 as [| p l l' Hperm IH | p q l | l l' l'' H1 IH1 H2 IH2];
    intros a.
  - done.
  - simpl fold_left. apply IH.
  - simpl fold_left. rewrite !max_step_max. f_equal. lia.
  - by rewrite IH1.
Qed.

Lemma max_seq_len_lower batch : -1 ≤ max_seq_len batch.
Proof. by destruct (max_loop_spec batch (-1)) as (Hle & _). Qed.

(** X12. The max length found by the first loop does not depend on the
    order of the packets, and the max length of two batches put together
    is the larger of their max lengths (the empty batch counting as -1). *)
Theorem max_seq_len_app_perm batch batch' :
  max_seq_len (batch ++ batch')
  = Z.max (max_seq_len batch) (max_seq_len batch')
  ∧ (batch ≡ₚ batch' → max_seq_len batch = max_seq_len batch')
  ∧ max_seq_len (@nil (@Packet GenerateConfig ResultMeta)) = -1.
Proof.
  split; [| split; [| done]].
  - unfold max_seq_len. rewrite fold_left_app.
    rewrite <- max_loop_max. f_equal.
    pose proof (max_seq_len_lower batch) as Hlow.
    unfold max_seq_len in Hlow. lia.
  - intros Hperm. unfold max_seq_len. by apply max_loop_perm.
Qed.

Lemma cur_id_len_add_result packet (res : @GenerateResult ResultMeta) :
  cur_id_len (add_result packet res) = cur_id_len packet + 1.
Proof.
  unfold cur_id_len. simpl. rewrite len_app. unfold len. simpl. lia.
Qed.

Lemma is_max_length_shift batch batch' (m : Z) :
  Forall2 (λ p q, cur_id_len q = cur_id_len p + 1) batch batch' →
  is_max_length batch m →
  is_max_length batch' (m + 1).
Proof.
  intros Hall [Hex Hle]. split.
  - clear Hle. induction Hall as [| p q l l' Hpq Hall IH].
    + by apply Exists_nil in Hex.
    + apply Exists_cons in Hex as [Hp | Hl].
      * apply Exists_cons_hd. lia.
      * apply Exists_cons_tl. by apply IH.
  - clear Hex. induction Hall as [| p q l l' Hpq Hall IH]; [constructor |].
    apply Forall_cons in Hle as [Hp Hl].
    constructor; [lia | by apply IH].
Qed.

(** X13. One decoding step widens the batch by exactly one column: when
    every packet of a non-empty batch has received one result through
    [add_result], the max length of the batch is the previous one
    plus 1. *)
Theorem max_seq_len_after_step batch (rs : list (@GenerateResult ResultMeta)) :
  batch ≠ [] →
  length rs = length batch →
  max_seq_len (zip_with add_result batch rs) = max_seq_len batch + 1.
Proof.
  intros Hne Hlen.
  apply is_max_length_max_seq_len.
  apply (is_max_length_shift batch); [| by apply max_seq_len_is_max].
  clear Hne. revert rs Hlen.
  induction batch as [| p batch IH]; intros [| r rs] Hlen; try done.
  simpl. constructor.
  - apply cur_id_len_add_result.
  - apply IH. simpl in Hlen. lia.
Qed.

End MaxLength.

(** ** The engine: preparing and distributing the inputs *)

Section EngineProperties.

Context {GenerateConfig ResultMeta : Type}.
Implicit Types (packet : @Packet GenerateConfig ResultMeta)
               (batch packets : list (@Packet GenerateConfig ResultMeta))
               (self : NpuEngine).

Lemma NpuEngine_prepare_inputs_closed_form self batch :
  NpuEngine_prepare_inputs self batch
  = (tag ← read_local "generate_type" (row_type <$> last batch);
     name ← py_subscript (model_config self) "model_name";
     Ok (prepared_inputs (pad_token_id self) batch tag
           (py_eq_str name "chatglm2"))).
Proof.
  unfold NpuEngine_prepare_inputs. rewrite prepare_inputs_closed_form.
  unfold dict_getitem. by simplify_map_eq.
Qed.

(** X8. [NpuEngine.prepare_inputs] passes both keywords itself, so it
    never fails on a missing keyword. It returns exactly when the batch
    is non-empty and the engine's [model_config] is a dictionary with a
    [model_name]; on the empty batch it raises [UnboundLocalError]
    whatever the configuration is, and on a non-empty batch it raises
    [TypeError] when [model_config] is not a dictionary and [KeyError]
    when the dictionary has no [model_name]. *)
Theorem NpuEngine_prepare_inputs_outcome self batch :
  (batch = [] →
   NpuEngine_prepare_inputs self batch
   = Raise (UnboundLocalError "generate_type"))
  ∧ (batch ≠ [] → (∀ d, model_config self ≠ PyDict d) →
     NpuEngine_prepare_inputs self batch = Raise TypeError)
  ∧ (batch ≠ [] →
     ∀ d, model_config self = PyDict d → d !! "model_name" = None →
          NpuEngine_prepare_inputs self batch = Raise (KeyError "model_name"))
  ∧ (∀ e, NpuEngine_prepare_inputs self batch = Raise e →
          e ≠ KeyError "model_config" ∧ e ≠ KeyError "pad_token_id")
  ∧ ((∃ model_inputs, NpuEngine_prepare_inputs self batch = Ok model_inputs)
     ↔ batch ≠ []
       ∧ ∃ d name, model_config self = PyDict d ∧ d !! "model_name" = Some name).
Proof.
  rewrite NpuEngine_prepare_inputs_closed_form.
  destruct (last batch) as [q |] eqn:Hlast.
  - assert (batch ≠ []) as Hne by (intros ->; done).
    simpl. split; [done |]. split; [| split; [| split]].
    + intros _ Hnd. destruct (model_config self); try done. by destruct (Hnd d).
    + intros _ d -> Hname. simpl. unfold dict_getitem. by rewrite Hname.
    + intros e He.
      destruct (model_config self) as [| | | | | | d]; simpl in He;
        try (injection He as <-; done).
      unfold dict_getitem in He.
      destruct (d !! "model_name"); simpl in He; [done |].
      injection He as <-. done.
    + split.
      * intros [mi Hmi]. split; [done |].
        destruct (model_config self) as [| | | | | | d]; try done.
        simpl in Hmi. unfold dict_getitem in Hmi.
        destruct (d !! "model_name") as [name |] eqn:Hname; [| done].
        by exists d, name.
      * intros (_ & d & name & -> & Hname). simpl. unfold dict_getitem.
        rewrite Hname. simpl. by eexists.
  - apply last_None in Hlast as ->. simpl.
    split; [done |]. split; [done |]. split; [done |].
    split; [intros e [= <-]; done |].
    split; [intros [mi Hmi]; done | intros [Hne _]; done].
Qed.

(** X14. Who returns what in [broadcast_inputs]. A call that returns
    never changes the engine's configuration, pad token, rank count or
    rank. With a rank count of at most 1 the call returns the tuple of
    its arguments and leaves the engine as it was. On a single rank and
    on the leader the call is never suspended and what it returns is the
    tuple of its own arguments; the leader of several ranks appends
    exactly that tuple to what its messenger has sent when the link is
    up, and fails with [TransportError] when the link is down. On a
    follower the arguments are ignored: the outcome is the same whatever
    is passed; it is the payload that arrived first, a suspension when
    nothing has arrived and the link is up, and [TransportError] when
    nothing has arrived and the link is down. *)
Theorem broadcast_inputs_roles self (args : list pyobj) :
  (∀ r self', broadcast_inputs self args = Ok (Some (r, self')) →
     model_config self' = model_config self
     ∧ pad_token_id self' = pad_token_id self
     ∧ world_size self' = world_size self
     ∧ local_rank self' = local_rank self)
  ∧ (world_size self ≤ 1 →
     broadcast_inputs self args = Ok (Some (PyTuple args, self)))
  ∧ (world_size self ≤ 1 ∨ local_rank self = 0 →
     broadcast_inputs self args ≠ Ok None
     ∧ ∀ r self', broadcast_inputs self args = Ok (Some (r, self')) →
         r = PyTuple args)
  ∧ (1 < world_size self → local_rank self = 0 →
     ∀ m, mlp_manager self = Some m →
       (connected m = true →
        broadcast_inputs self args
        = Ok (Some (PyTuple args,
                    set_mlp_manager self
                      {| sent := sent m ++ [PyTuple args];
                         inbox := inbox m;
                         connected := true |})))
       ∧ (connected m = false →
          broadcast_inputs self args = Raise TransportError))
  ∧ (1 < world_size self → local_rank self ≠ 0 →
     (∀ args', broadcast_inputs self args' = broadcast_inputs self args)
     ∧ ∀ m, mlp_manager self = Some m →
         (∀ payload rest, inbox m = payload :: rest →
            broadcast_inputs self args
            = Ok (Some (payload,
                        set_mlp_manager self
                          {| sent := sent m; inbox := rest;
                             connected := connected m |})))
         ∧ (inbox m = [] → connected m = true →
            broadcast_inputs self args = Ok None)
         ∧ (inbox m = [] → connected m = false →
            broadcast_inputs self args = Raise TransportError)).
Proof.
  unfold broadcast_inputs, get_mlp_manager, broadcast, receive.
  split; [| split; [| split; [| split]]].
  - intros r self' He.
    destruct (world_size self <=? 1); [by injection He as <- <- |].
    destruct (local_rank self =? 0), (mlp_manager self) as [m |];
      simpl in He; try done.
    + destruct (connected m); simpl in He; [| done].
      by injection He as <- <-.
    + destruct (inbox m) as [| payload rest]; simpl in He.
      * by destruct (connected m).
      * by injection He as <- <-.
  - intros Hws. by replace (world_size self <=? 1) with true by lia.
  - intros Hrole.
    destruct (world_size self <=? 1) eqn:Hws.
    { split; [done |]. intros r self' He. by injection He as <- <-. }
    replace (local_rank self =? 0) with true by lia.
    destruct (mlp_manager self) as [m |]; simpl; [| done].
    destruct (connected m); simpl; [| done].
    split; [done |]. intros r self' He. by injection He as <- <-.
  - intros Hws Hrank m Hm.
    replace (world_size self <=? 1) with false by lia.
    replace (local_rank self =? 0) with true by lia.
    rewrite Hm. simpl. split; intros ->; done.
  - intros Hws Hrank.
    replace (world_size self <=? 1) with false by lia.
    replace (local_rank self =? 0) with false by lia.
    split; [done |]. intros m ->. simpl.
    split; [| split].
    + by intros payload rest ->.
    + by intros -> ->.
    + by intros -> ->.
Qed.

(** X15. The prepared inputs survive the trip through
    [broadcast_inputs(...)[0]]. On rank 0 the first statements of
    [do_inference] yield exactly the dictionary [prepare_inputs]
    returned, and a failure of [prepare_inputs] is raised as it is,
    before anything is sent. With a rank count of at most 1 the engine is
    not touched. The leader of several ranks sends one tuple holding the
    dictionary when the link of its messenger is up, and fails with
    [TransportError] when the inputs are prepared and the link is
    down. *)
Theorem do_inference_inputs_on_leader self packets :
  local_rank self = 0 →
  (world_size self ≤ 1 →
   do_inference_inputs self packets
   = (model_inputs ← NpuEngine_prepare_inputs self packets;
      Ok (Some (PyDict model_inputs, self))))
  ∧ (1 < world_size self →
     ∀ m, mlp_manager self = Some m →
       (∀ e, NpuEngine_prepare_inputs self packets = Raise e →
             do_inference_inputs self packets = Raise e)
       ∧ (∀ model_inputs,
            NpuEngine_prepare_inputs self packets = Ok model_inputs →
            (connected m = true →
             do_inference_inputs self packets
             = Ok (Some (PyDict model_inputs,
                         set_mlp_manager self
                           {| sent := sent m ++ [PyTuple [PyDict model_inputs]];
                              inbox := inbox m;
                              connected := true |})))
            ∧ (connected m = false →
               do_inference_inputs self packets = Raise TransportError))).
Proof.
  intros Hrank.
  unfold do_inference_inputs, broadcast_inputs, get_mlp_manager, broadcast.
  rewrite Hrank. simpl. split.
  - intros Hws. replace (world_size self <=? 1) with true by lia.
    by destruct (NpuEngine_prepare_inputs self packets).
  - intros Hws m Hm. replace (world_size self <=? 1) with false by lia.
    rewrite Hm. split.
    + by intros e ->.
    + intros mi ->. simpl. split; intros ->; done.
Qed.

(** X16. A follower never prepares inputs and runs on what the leader
    prepared. When the leader's [do_inference] has obtained the inputs
    [x] and the tuple it sent last is the next one to arrive at a
    follower, the follower's [do_inference] obtains the same [x],
    whatever packets it was called with (the empty list included), and
    takes just that tuple from its messenger. *)
Theorem follower_runs_on_leader_inputs
    (leader follower leader' : NpuEngine) packets packets'
    (x payload : pyobj) (lm m : NPUMultiProcessMsgr) (rest : list pyobj) :
  1 < world_size leader → local_rank leader = 0 →
  do_inference_inputs leader packets = Ok (Some (x, leader')) →
  mlp_manager leader' = Some lm →
  last (sent lm) = Some payload →
  1 < world_size follower → local_rank follower ≠ 0 →
  mlp_manager follower = Some m →
  inbox m = payload :: rest →
  do_inference_inputs follower packets'
  = Ok (Some (x, set_mlp_manager follower
                   {| sent := sent m; inbox := rest;
                      connected := connected m |})).
Proof.
  intros Hlws Hlrank Hleader Hlm Hlast Hfws Hfrank Hm Hinbox.
  assert (payload = PyTuple [x]) as ->.
  { unfold do_inference_inputs, broadcast_inputs, get_mlp_manager, broadcast
      in Hleader.
    rewrite Hlrank in Hleader. simpl in Hleader.
    replace (world_size leader <=? 1) with false in Hleader by lia.
    destruct (NpuEngine_prepare_inputs leader packets) as [mi | e];
      simpl in Hleader; [| done].
    destruct (mlp_manager leader) as [m0 |]; simpl in Hleader; [| done].
    destruct (connected m0); simpl in Hleader; [| done].
    injection Hleader as <- <-. simpl in Hlm. injection Hlm as <-.
    simpl in Hlast. rewrite last_snoc in Hlast. by injection Hlast as <-. }
  unfold do_inference_inputs, broadcast_inputs, get_mlp_manager, receive.
  replace (local_rank follower =? 0) with false by lia. simpl.
  replace (world_size follower <=? 1) with false by lia.
  rewrite Hm. simpl. rewrite Hinbox. done.
Qed.

End EngineProperties.

(** ** The further statements at concrete inputs *)

Lemma packet_methods_never_record_an_error_witness :
  request (error (finish (add_result (sample_new_packet [5; 7; 9])
                            (sample_result 42))))
  = sample_request [5; 7; 9]
  ∧ exception (error (finish (add_result (sample_new_packet [5; 7; 9])
                                (sample_result 42)))) = None
  ∧ (state (error (finish (add_result (sample_new_packet [5; 7; 9])
                             (sample_result 42)))) = PENDING
     ∨ state (error (finish (add_result (sample_new_packet [5; 7; 9])
                               (sample_result 42)))) = FINISH)
  ∧ state (error (finish (add_result (sample_new_packet [5; 7; 9])
                            (sample_result 42)))) ≠ ERROR
  ∧ state (error (finish (add_result (sample_new_packet [5; 7; 9])
                            (sample_result 42)))) ≠ RUNNING.
Proof.
  apply packet_methods_never_record_an_error.
  eapply rtc_l; [apply (step_add_result _ (sample_result 42)) |].
  eapply rtc_l; [apply step_finish |].
  eapply rtc_l; [apply step_error |].
  apply rtc_refl.
Defined.

Lemma pending_results_are_tail_of_generate_ids_witness :
  ∃ delivered : list Z,
    [42; 43] = delivered ++ result_tokens [Some (sample_result 43)].
Proof.
  apply (pending_results_are_tail_of_generate_ids (sample_request [5; 7; 9])
           {| request := sample_request [5; 7; 9];
              result_queue :=
                {| items := [Some (sample_result 43)]; closed := false |};
              state := PENDING;
              generate_ids := [42; 43];
              exception := None |}).
  eapply rtc_l; [apply (step_add_result _ (sample_result 42)) |].
  eapply rtc_l; [apply (step_add_result _ (sample_result 43)) |].
  eapply rtc_l; [eapply step_get_result; reflexivity |].
  apply rtc_refl.
Defined.

Lemma results_are_delivered_in_order_witness :
  ∃ self',
    drain 3 (finish (add_results (sample_new_packet [5; 7; 9])
                       [sample_result 42; sample_result 43]))
    = Some ([Some (sample_result 42); Some (sample_result 43); None], self')
    ∧ return_q_empty self' = true
    ∧ is_finished self' = true
    ∧ generate_ids self' = [42; 43].
Proof.
  apply (results_are_delivered_in_order (sample_new_packet [5; 7; 9])
           [sample_result 42; sample_result 43]).
  reflexivity.
Defined.

Lemma is_finished_is_stable_witness :
  is_finished (error (add_result (finish (sample_new_packet [5; 7; 9]))
                        (sample_result 42))) = true.
Proof.
  apply (is_finished_is_stable (finish (sample_new_packet [5; 7; 9]))).
  - eapply rtc_l; [apply (step_add_result _ (sample_result 42)) |].
    eapply rtc_l; [apply step_error |].
    apply rtc_refl.
  - reflexivity.
Defined.

Lemma prepare_inputs_keys_witness :
  ∃ model_inputs : gmap string pyobj,
    prepare_inputs [sample_packet PENDING [5; 7; 9] []]
      (sample_kwargs 0 "chatglm2") = Ok model_inputs
    ∧ model_inputs !! "use_cache" = Some PyNone
    ∧ (model_inputs !! "generate_type" = Some (PyStr "prefill")
       ∨ model_inputs !! "generate_type" = Some (PyStr "decode")).
Proof.
  eexists. split; [reflexivity |].
  split;
    apply (prepare_inputs_keys [sample_packet PENDING [5; 7; 9] []]
             (sample_kwargs 0 "chatglm2") _ eq_refl).
Defined.

Lemma prepare_inputs_depends_on_tokens_only_witness :
  prepare_inputs [sample_packet PENDING [5; 7; 9] [42]]
    (sample_kwargs 0 "llama2")
  = prepare_inputs
      [add_result (sample_packet FINISH [5; 7; 9] []) (sample_result 42)]
      (<["max_batch_size" := PyInt 8]> (sample_kwargs 0 "gpt2")).
Proof.
  apply (prepare_inputs_depends_on_tokens_only _ _ _ _
           (<["model_name" := PyStr "llama2"]> ∅)
           (<["model_name" := PyStr "gpt2"]> ∅)
           (PyStr "llama2") (PyStr "gpt2")); try reflexivity.
  repeat constructor.
Defined.

Lemma NpuEngine_prepare_inputs_outcome_witness :
  NpuEngine_prepare_inputs (sample_engine 1 0) (@nil (@Packet unit unit))
  = Raise (UnboundLocalError "generate_type")
  ∧ ∃ model_inputs,
      NpuEngine_prepare_inputs (sample_engine 1 0)
        [sample_packet PENDING [5; 7; 9] []] = Ok model_inputs.
Proof.
  split.
  - apply (NpuEngine_prepare_inputs_outcome (sample_engine 1 0) []).
    reflexivity.
  - apply (NpuEngine_prepare_inputs_outcome (sample_engine 1 0)
             [sample_packet PENDING [5; 7; 9] []]).
    split; [discriminate |]. by eexists _, _.
Defined.

Lemma rows_depend_on_max_length_only_witness :
  ∃ (model_inputs model_inputs' : gmap string pyobj) (ids pos : list pyobj),
    prepare_inputs
      [sample_packet PENDING [5; 7] []; sample_packet RUNNING [1; 2; 3] [42]]
      (sample_kwargs 0 "llama2") = Ok model_inputs
    ∧ prepare_inputs
        [sample_packet RUNNING [1; 2; 3] [42]; sample_packet PENDING [5; 7] []]
        (sample_kwargs 0 "chatglm2") = Ok model_inputs'
    ∧ row_of model_inputs "input_ids" 0 = Some ids
    ∧ row_of model_inputs' "input_ids" 1 = Some ids
    ∧ row_of model_inputs "position_ids" 0 = Some pos
    ∧ row_of model_inputs' "position_ids" 1 = Some pos.
Proof.
  destruct (rows_depend_on_max_length_only
              [sample_packet PENDING [5; 7] [];
               sample_packet RUNNING [1; 2; 3] [42]]
              [sample_packet RUNNING [1; 2; 3] [42];
               sample_packet PENDING [5; 7] []]
              (sample_kwargs 0 "llama2") (sample_kwargs 0 "chatglm2")
              _ _ 0%nat 1%nat (sample_packet PENDING [5; 7] []) 4
              eq_refl eq_refl eq_refl eq_refl eq_refl)
    as (ids & pos & H).
  - by_evaluation.
  - by_evaluation.
  - eexists _, _, ids, pos. split; [reflexivity |]. split; [reflexivity |].
    exact H.
Defined.

Lemma add_result_feeds_next_step_witness :
  ∃ model_inputs : gmap string pyobj,
    prepare_inputs
      [add_result (sample_new_packet [5; 7; 9]) (sample_result 42)]
      (sample_kwargs 0 "llama2") = Ok model_inputs
    ∧ row_of model_inputs "input_ids" 0
      = Some [PyInt 42; PyInt 0; PyInt 0; PyInt 0]
    ∧ row_of model_inputs "position_ids" 0
      = Some [PyInt 3; PyInt 0; PyInt 0; PyInt 0].
Proof.
  eexists. split; [reflexivity |].
  apply (add_result_feeds_next_step
           [add_result (sample_new_packet [5; 7; 9]) (sample_result 42)]
           (sample_kwargs 0 "llama2") _ (PyInt 0) 0%nat
           (sample_new_packet [5; 7; 9]) (sample_result 42) 4
           eq_refl eq_refl eq_refl).
  by_evaluation.
Defined.

Lemma decode_position_is_batch_max_witness :
  ∃ (model_inputs : gmap string pyobj) (pos : list pyobj),
    prepare_inputs
      [sample_packet RUNNING [1; 2; 3; 4; 5] [42]; sample_packet RUNNING [1] [7]]
      (sample_kwargs 0 "llama2") = Ok model_inputs
    ∧ row_of model_inputs "position_ids" 1 = Some pos
    ∧ head pos = Some (PyInt 5)
    ∧ (head pos = Some (PyInt 1) ↔ 2 = 6).
Proof.
  destruct (decode_position_is_batch_max
              [sample_packet RUNNING [1; 2; 3; 4; 5] [42];
               sample_packet RUNNING [1] [7]]
              (sample_kwargs 0 "llama2") _ 1%nat
              (sample_packet RUNNING [1] [7]) 6 eq_refl eq_refl)
    as (pos & H).
  - vm_compute. discriminate.
  - by_evaluation.
  - eexists _, pos. split; [reflexivity |]. exact H.
Defined.

Lemma max_seq_len_app_perm_witness :
  max_seq_len
    [sample_packet PENDING [5; 7] []; sample_packet RUNNING [1; 2; 3] [42]]
  = max_seq_len
      [sample_packet RUNNING [1; 2; 3] [42]; sample_packet PENDING [5; 7] []].
Proof.
  apply (max_seq_len_app_perm
           [sample_packet PENDING [5; 7] [];
            sample_packet RUNNING [1; 2; 3] [42]]
           [sample_packet RUNNING [1; 2; 3] [42];
            sample_packet PENDING [5; 7] []]).
  apply perm_swap.
Defined.

Lemma max_seq_len_after_step_witness :
  max_seq_len
    (zip_with add_result
       [sample_packet PENDING [5; 7] []; sample_packet RUNNING [1; 2; 3] [42]]
       [sample_result 8; sample_result 9])
  = max_seq_len
      [sample_packet PENDING [5; 7] []; sample_packet RUNNING [1; 2; 3] [42]]
    + 1.
Proof.
  apply max_seq_len_after_step; [discriminate | reflexivity].
Defined.

Lemma broadcast_inputs_roles_witness :
  broadcast_inputs (sample_rank_engine 0 []) [sample_model_inputs]
  = Ok (Some (PyTuple [sample_model_inputs],
              set_mlp_manager (sample_rank_engine 0 [])
                {| sent := [PyTuple [sample_model_inputs]];
                   inbox := [];
                   connected := true |}))
  ∧ broadcast_inputs (sample_cut_off_engine 0) [sample_model_inputs]
    = Raise TransportError
  ∧ broadcast_inputs (sample_rank_engine 1 [PyTuple [sample_model_inputs]])
      [PyNone]
    = broadcast_inputs (sample_rank_engine 1 [PyTuple [sample_model_inputs]])
        [sample_model_inputs]
  ∧ broadcast_inputs (sample_rank_engine 1 []) [PyNone] = Ok None
  ∧ broadcast_inputs (sample_cut_off_engine 1) [PyNone] = Raise TransportError.
Proof.
  split; [| split; [| split; [| split]]].
  - destruct (broadcast_inputs_roles (sample_rank_engine 0 [])
                [sample_model_inputs]) as (_ & _ & _ & Hleader & _).
    apply (Hleader eq_refl eq_refl
             {| sent := []; inbox := []; connected := true |} eq_refl).
    reflexivity.
  - destruct (broadcast_inputs_roles (sample_cut_off_engine 0)
                [sample_model_inputs]) as (_ & _ & _ & Hleader & _).
    apply (Hleader eq_refl eq_refl
             {| sent := []; inbox := []; connected := false |} eq_refl).
    reflexivity.
  - destruct (broadcast_inputs_roles
                (sample_rank_engine 1 [PyTuple [sample_model_inputs]])
                [sample_model_inputs]) as (_ & _ & _ & _ & Hfollower).
    assert (local_rank (sample_rank_engine 1 [PyTuple [sample_model_inputs]])
            ≠ 0) as Hrank by discriminate.
    destruct (Hfollower eq_refl Hrank) as [Hsame _].
    apply Hsame.
  - destruct (broadcast_inputs_roles (sample_rank_engine 1 []) [PyNone])
      as (_ & _ & _ & _ & Hfollower).
    assert (local_rank (sample_rank_engine 1 []) ≠ 0) as Hrank
      by discriminate.
    destruct (Hfollower eq_refl Hrank) as [_ Hinbox].
    apply (Hinbox {| sent := []; inbox := []; connected := true |} eq_refl);
      reflexivity.
  - destruct (broadcast_inputs_roles (sample_cut_off_engine 1) [PyNone])
      as (_ & _ & _ & _ & Hfollower).
    assert (local_rank (sample_cut_off_engine 1) ≠ 0) as Hrank
      by discriminate.
    destruct (Hfollower eq_refl Hrank) as [_ Hinbox].
    apply (Hinbox {| sent := []; inbox := []; connected := false |} eq_refl);
      reflexivity.
Defined.

Lemma do_inference_inputs_on_leader_witness :
  do_inference_inputs (sample_engine 1 0) [sample_packet PENDING [5; 7; 9] []]
  = (model_inputs ← NpuEngine_prepare_inputs (sample_engine 1 0)
                      [sample_packet PENDING [5; 7; 9] []];
     Ok (Some (PyDict model_inputs, sample_engine 1 0)))
  ∧ do_inference_inputs (sample_rank_engine 0 [])
      [sample_packet PENDING [5; 7; 9] []]
    = Ok (Some (PyDict sample_prepared,
                set_mlp_manager (sample_rank_engine 0 [])
                  {| sent := [PyTuple [PyDict sample_prepared]];
                     inbox := [];
                     connected := true |}))
  ∧ do_inference_inputs (sample_cut_off_engine 0)
      [sample_packet PENDING [5; 7; 9] []]
    = Raise TransportError
  ∧ do_inference_inputs (sample_cut_off_engine 0) (@nil (@Packet unit unit))
    = Raise (UnboundLocalError "generate_type").
Proof.
  split; [| split; [| split]].
  - apply (do_inference_inputs_on_leader (sample_engine 1 0)
             [sample_packet PENDING [5; 7; 9] []] eq_refl).
    vm_compute. discriminate.
  - destruct (do_inference_inputs_on_leader (sample_rank_engine 0 [])
                [sample_packet PENDING [5; 7; 9] []] eq_refl) as [_ Hmulti].
    destruct (Hmulti eq_refl
                {| sent := []; inbox := []; connected := true |} eq_refl)
      as [_ Hok].
    apply (Hok sample_prepared); reflexivity.
  - destruct (do_inference_inputs_on_leader (sample_cut_off_engine 0)
                [sample_packet PENDING [5; 7; 9] []] eq_refl) as [_ Hmulti].
    destruct (Hmulti eq_refl
                {| sent := []; inbox := []; connected := false |} eq_refl)
      as [_ Hok].
    apply (Hok sample_prepared); reflexivity.
  - destruct (do_inference_inputs_on_leader (sample_cut_off_engine 0)
                (@nil (@Packet unit unit)) eq_refl) as [_ Hmulti].
    destruct (Hmulti eq_refl
                {| sent := []; inbox := []; connected := false |} eq_refl)
      as [Hfail _].
    apply Hfail. reflexivity.
Defined.

Lemma follower_runs_on_leader_inputs_witness :
  do_inference_inputs
    (sample_rank_engine 1 [PyTuple [PyDict sample_prepared]])
    (@nil (@Packet unit unit))
  = Ok (Some (PyDict sample_prepared,
              set_mlp_manager
                (sample_rank_engine 1 [PyTuple [PyDict sample_prepared]])
                {| sent := []; inbox := []; connected := true |})).
Proof.
  apply (follower_runs_on_leader_inputs (sample_rank_engine 0 [])
           (sample_rank_engine 1 [PyTuple [PyDict sample_prepared]])
           (set_mlp_manager (sample_rank_engine 0 [])
              {| sent := [PyTuple [PyDict sample_prepared]]; inbox := [];
                 connected := true |})
           [sample_packet PENDING [5; 7; 9] []] []
           (PyDict sample_prepared) (PyTuple [PyDict sample_prepared])
           {| sent := [PyTuple [PyDict sample_prepared]]; inbox := [];
              connected := true |}
           {| sent := []; inbox := [PyTuple [PyDict sample_prepared]];
              connected := true |} []);
    try reflexivity; try discriminate.
Defined.

Lemma decode_rows_carry_no_history_witness :
  ∃ (model_inputs : gmap string pyobj) (t t' : Z) (ids ids' pos : list pyobj),
    prepare_inputs
      [sample_packet RUNNING [1; 2; 3; 4] [8; 42]; sample_packet RUNNING [9] [7]]
      (sample_kwargs 0 "llama2") = Ok model_inputs
    ∧ last [8; 42] = Some t
    ∧ last [7] = Some t'
    ∧ row_of model_inputs "position_ids" 0 = Some pos
    ∧ row_of model_inputs "position_ids" 1 = Some pos
    ∧ row_of model_inputs "input_ids" 0 = Some ids
    ∧ row_of model_inputs "input_ids" 1 = Some ids'
    ∧ head ids = Some (PyInt t)
    ∧ head ids' = Some (PyInt t')
    ∧ tail ids = tail ids'
    ∧ (ids = ids' ↔ t = t').
Proof.
  destruct (decode_rows_carry_no_history
              [sample_packet RUNNING [1; 2; 3; 4] [8; 42];
               sample_packet RUNNING [9] [7]]
              (sample_kwargs 0 "llama2") _ 0%nat 1%nat
              (sample_packet RUNNING [1; 2; 3; 4] [8; 42])
              (sample_packet RUNNING [9] [7])
              eq_refl eq_refl eq_refl)
    as (t & t' & ids & ids' & pos & H).
  - vm_compute. discriminate.
  - vm_compute. discriminate.
  - eexists _, t, t', ids, ids', pos. split; [reflexivity |]. exact H.
Defined.
